(** * The chat pipeline of the SnoRelax server

    A shallow embedding of the chatbot REST route ([routes/chatbotRoutes],
    [router.post("/")]) and of the chatbot socket handler
    ([sockets/chatbotSocket.js], [chatbotMessage]), with the helpers they call:
    [saveTrainingEntry], [callCohereGenerate], [callCohereAnalyzeMood],
    [detectLanguage] and [translate].

    Everything the handlers obtain from outside (HTTP responses, the Cohere
    client, the database, the training file, the clock) is an input of the
    model; every call they issue to the outside is recorded in a trace. *)

From Stdlib Require Import String Ascii DecimalString List NArith ZArith Bool Lia.
Import ListNotations.

#[local] Set Warnings "-register-all".

Set Implicit Arguments.

(** ** JavaScript strings

    A JavaScript string is a sequence of UTF-16 code units. *)

Definition jsstring := list N.

(** The code units of an ASCII literal of this file. *)
Definition lit (s : string) : jsstring :=
  map N_of_ascii (list_ascii_of_string s).

(** As [lit], with every backquote standing for a double quote. *)
Definition bq (s : string) : jsstring :=
  map (fun c => if (c =? 96)%N then 34%N else c) (lit s).

Fixpoint str_eqb (a b : jsstring) : bool :=
  match a, b with
  | [], [] => true
  | x :: a', y :: b' => (x =? y)%N && str_eqb a' b'
  | _, _ => false
  end.

(** [!s] for a string: only the empty string is falsy. *)
Definition is_empty (s : jsstring) : bool :=
  match s with [] => true | _ :: _ => false end.

(** [a || b] on strings. *)
Definition str_or (a b : jsstring) : jsstring :=
  if is_empty a then b else a.

(** WhiteSpace and LineTerminator code units, as [String.prototype.trim]
    strips them. *)
Definition isWhiteSpace (c : N) : bool :=
  ((c =? 9) || (c =? 10) || (c =? 11) || (c =? 12) || (c =? 13) || (c =? 32)
   || (c =? 160) || (c =? 5760) || ((8192 <=? c) && (c <=? 8202))
   || (c =? 8232) || (c =? 8233) || (c =? 8239) || (c =? 8287)
   || (c =? 12288) || (c =? 65279))%N.

Fixpoint trimStart (s : jsstring) : jsstring :=
  match s with
  | c :: s' => if isWhiteSpace c then trimStart s' else s
  | [] => []
  end.

Definition trimEnd (s : jsstring) : jsstring := rev (trimStart (rev s)).

Definition trim (s : jsstring) : jsstring := trimEnd (trimStart s).

(** [s.startsWith(p)]. *)
Fixpoint starts_with (p s : jsstring) : bool :=
  match p, s with
  | [], _ => true
  | a :: p', b :: s' => (a =? b)%N && starts_with p' s'
  | _ :: _, [] => false
  end.

(** [s.includes(k)]. *)
Fixpoint includes (s k : jsstring) : bool :=
  starts_with k s
  || match s with [] => false | _ :: s' => includes s' k end.

(** [s.indexOf(c)] for a one-unit needle; [None] is JavaScript's -1. *)
Fixpoint indexOf (c : N) (s : jsstring) : option nat :=
  match s with
  | [] => None
  | x :: s' => if (x =? c)%N then Some 0
               else option_map S (indexOf c s')
  end.

(** [s.slice(i)] for [0 <= i]. *)
Definition slice (i : nat) (s : jsstring) : jsstring := skipn i s.

(** [String.prototype.toLowerCase], exact on every code unit of the result
    that is ASCII: A-Z, the Kelvin sign (to k) and the dotted capital I (to i
    and a combining dot) are the only letters whose lower case contains an
    ASCII unit.  The units of the other cased letters are left as they are:
    their lower case has no ASCII unit either, so no test for an ASCII
    keyword can tell the two apart. *)
Definition lower_unit (c : N) : list N :=
  if ((65 <=? c) && (c <=? 90))%N then [(c + 32)%N]
  else if (c =? 8490)%N then [107%N]
  else if (c =? 304)%N then [105%N; 775%N]
  else [c].

Definition toLowerCase (s : jsstring) : jsstring := flat_map lower_unit s.

(** [parts.join(sep)] on an array of strings. *)
Fixpoint join (sep : jsstring) (parts : list jsstring) : jsstring :=
  match parts with
  | [] => []
  | [p] => p
  | p :: rest => p ++ sep ++ join sep rest
  end.

Definition nl : jsstring := [10%N].

(** ** Keyword extraction (route handler, "prefer-Cohere logic") *)

Definition KEYWORDS : list jsstring :=
  map lit ["stress"; "anxious"; "anxiety"; "depress"; "sad"; "happy"; "sleep";
           "insomnia"; "tired"; "panic"; "work"; "family"; "relationship";
           "angry"; "lonely"; "overwhelm"; "suicid"]%string.

(** [normalized = (translatedText || '').toLowerCase()]. *)
Definition normalized (translatedText : jsstring) : jsstring :=
  toLowerCase (str_or translatedText []).

(** [KEYWORDS.filter(k => normalized.includes(k))]. *)
Definition matchedKeywords (translatedText : jsstring) : list jsstring :=
  filter (fun k => includes (normalized translatedText) k) KEYWORDS.

(** [(matchedKeywords.length >= 2) || (matchedKeywords.length === 0)]. *)
Definition preferCohere (translatedText : jsstring) : bool :=
  (2 <=? length (matchedKeywords translatedText))
  || (length (matchedKeywords translatedText) =? 0).

(** ** JSON values

    The values [JSON.parse] and [res.json()] produce.  A number is kept as the
    decimal literal it was read from, [(-1)^neg * mant * 10^exp10]; what the
    runtime does with the IEEE double nearest to it is spelled out where the
    code needs it. *)

Record Number := mkNumber { num_neg : bool; num_mant : N; num_exp10 : Z }.

Inductive json :=
| JNull
| JBool (b : bool)
| JNum (n : Number)
| JStr (s : jsstring)
| JArr (items : list json)
| JObj (members : list (jsstring * json)).

(** The double nearest to a literal is zero exactly when the literal is at
    most [2^-1075] in magnitude (half the least subnormal, ties to even). *)
Definition Number_is_zero (n : Number) : bool :=
  if (num_mant n =? 0)%N then true
  else if (0 <=? num_exp10 n)%Z then false
  else (Z.of_N (num_mant n) * 2 ^ 1075 <=? 10 ^ (- num_exp10 n))%Z.

(** ToBoolean.  [undefined] is [None]. *)
Definition truthy (v : json) : bool :=
  match v with
  | JNull => false
  | JBool b => b
  | JNum n => negb (Number_is_zero n)
  | JStr s => negb (is_empty s)
  | JArr _ | JObj _ => true
  end.

Definition truthy_opt (o : option json) : bool :=
  match o with Some v => truthy v | None => false end.

(** Own property of an object built by [JSON.parse]: of duplicate keys the
    last one is the one kept. *)
Fixpoint assoc_last (k : jsstring) (ms : list (jsstring * json)) : option json :=
  match ms with
  | [] => None
  | (k', v) :: rest =>
      match assoc_last k rest with
      | Some w => Some w
      | None => if str_eqb k' k then Some v else None
      end
  end.

(** [v.name] for the names the code reads ([mood], [habits], [generations],
    [text]): no prototype defines them, so only an object can have one. *)
Definition get_field (name : jsstring) (v : json) : option json :=
  match v with
  | JObj ms => assoc_last name ms
  | _ => None
  end.

Definition index_key (i : nat) : jsstring :=
  lit (NilZero.string_of_uint (Nat.to_uint i)).

(** [v[i]] for a value that is neither [null] nor [undefined] (every use in
    the code is behind such a test). *)
Definition get_index (i : nat) (v : json) : option json :=
  match v with
  | JArr items => nth_error items i
  | JStr s => option_map (fun c => JStr [c]) (nth_error s i)
  | JObj ms => assoc_last (index_key i) ms
  | JNull | JBool _ | JNum _ => None
  end.

(** [o?.p]: [undefined] when [o] is [null] or [undefined]. *)
Definition chain (o : option json) (p : json -> option json) : option json :=
  match o with
  | None | Some JNull => None
  | Some v => p v
  end.

(** ** [JSON.parse]

    A lexer that reads one code unit at a time, then a stack parser that
    reads one token at a time; [None] is the SyntaxError. *)

Inductive token :=
| TLBrace | TRBrace | TLBracket | TRBracket | TColon | TComma
| TStr (s : jsstring) | TNum (n : Number) | TTrue | TFalse | TNull.

Inductive num_state := NSign | NZero | NInt | NDot | NFrac | NE | NESign | NExp.

Record num_acc := mkAcc {
  na_state : num_state;
  na_neg : bool;      (* a leading minus was read *)
  na_mant : N;        (* the digits read so far, without the point *)
  na_scale : Z;       (* how many of them follow the point *)
  na_eneg : bool;     (* the exponent has a minus *)
  na_exp : N          (* the exponent digits *)
}.

Inductive mode :=
| MIdle
| MStr (acc : jsstring)                 (* inside a string; [acc] is reversed *)
| MEsc (acc : jsstring)                 (* after a backslash *)
| MHex (acc : jsstring) (k : nat) (v : N) (* [k] digits of a \u escape read *)
| MNumber (a : num_acc)
| MWord (rest : jsstring) (t : token).  (* inside true, false or null *)

Definition is_digit (c : N) : bool := ((48 <=? c) && (c <=? 57))%N.

Definition hex_value (c : N) : option N :=
  if is_digit c then Some (c - 48)%N
  else if ((65 <=? c) && (c <=? 70))%N then Some (c - 55)%N
  else if ((97 <=? c) && (c <=? 102))%N then Some (c - 87)%N
  else None.

Definition number_of (a : num_acc) : Number :=
  mkNumber (na_neg a) (na_mant a)
    ((if na_eneg a then - Z.of_N (na_exp a) else Z.of_N (na_exp a))
     - na_scale a)%Z.

Definition num_accepting (a : num_acc) : bool :=
  match na_state a with
  | NZero | NInt | NFrac | NExp => true
  | NSign | NDot | NE | NESign => false
  end.

Definition lex_idle (c : N) : option (mode * list token) :=
  if ((c =? 32) || (c =? 9) || (c =? 10) || (c =? 13))%N then Some (MIdle, [])
  else if (c =? 123)%N then Some (MIdle, [TLBrace])
  else if (c =? 125)%N then Some (MIdle, [TRBrace])
  else if (c =? 91)%N then Some (MIdle, [TLBracket])
  else if (c =? 93)%N then Some (MIdle, [TRBracket])
  else if (c =? 58)%N then Some (MIdle, [TColon])
  else if (c =? 44)%N then Some (MIdle, [TComma])
  else if (c =? 34)%N then Some (MStr [], [])
  else if (c =? 45)%N then Some (MNumber (mkAcc NSign true 0 0 false 0), [])
  else if (c =? 48)%N then Some (MNumber (mkAcc NZero false 0 0 false 0), [])
  else if is_digit c then
    Some (MNumber (mkAcc NInt false (c - 48) 0 false 0), [])
  else if (c =? 116)%N then Some (MWord (lit "rue") TTrue, [])
  else if (c =? 102)%N then Some (MWord (lit "alse") TFalse, [])
  else if (c =? 110)%N then Some (MWord (lit "ull") TNull, [])
  else None.

(** The number is complete; [c] is read again as the start of what follows. *)
Definition lex_after_number (a : num_acc) (c : N) : option (mode * list token) :=
  match lex_idle c with
  | Some (m, out) => Some (m, TNum (number_of a) :: out)
  | None => None
  end.

Definition push_digit (a : num_acc) (st : num_state) (c : N) : num_acc :=
  mkAcc st (na_neg a) (na_mant a * 10 + (c - 48)) (na_scale a)
        (na_eneg a) (na_exp a).

Definition push_frac (a : num_acc) (c : N) : num_acc :=
  mkAcc NFrac (na_neg a) (na_mant a * 10 + (c - 48)) (na_scale a + 1)
        (na_eneg a) (na_exp a).

Definition push_exp (a : num_acc) (c : N) : num_acc :=
  mkAcc NExp (na_neg a) (na_mant a) (na_scale a)
        (na_eneg a) (na_exp a * 10 + (c - 48)).

Definition set_state (a : num_acc) (st : num_state) (eneg : bool) : num_acc :=
  mkAcc st (na_neg a) (na_mant a) (na_scale a) eneg (na_exp a).

Definition is_e (c : N) : bool := ((c =? 101) || (c =? 69))%N.

Definition lex_number (a : num_acc) (c : N) : option (mode * list token) :=
  match na_state a with
  | NSign =>
      if (c =? 48)%N then Some (MNumber (set_state a NZero false), [])
      else if is_digit c then Some (MNumber (push_digit a NInt c), [])
      else None
  | NZero =>
      if (c =? 46)%N then Some (MNumber (set_state a NDot false), [])
      else if is_e c then Some (MNumber (set_state a NE false), [])
      else lex_after_number a c
  | NInt =>
      if is_digit c then Some (MNumber (push_digit a NInt c), [])
      else if (c =? 46)%N then Some (MNumber (set_state a NDot false), [])
      else if is_e c then Some (MNumber (set_state a NE false), [])
      else lex_after_number a c
  | NDot =>
      if is_digit c then Some (MNumber (push_frac a c), []) else None
  | NFrac =>
      if is_digit c then Some (MNumber (push_frac a c), [])
      else if is_e c then Some (MNumber (set_state a NE false), [])
      else lex_after_number a c
  | NE =>
      if (c =? 43)%N then Some (MNumber (set_state a NESign false), [])
      else if (c =? 45)%N then Some (MNumber (set_state a NESign true), [])
      else if is_digit c then Some (MNumber (push_exp a c), [])
      else None
  | NESign =>
      if is_digit c then Some (MNumber (push_exp a c), []) else None
  | NExp =>
      if is_digit c then Some (MNumber (push_exp a c), [])
      else lex_after_number a c
  end.

Definition lex_escape (acc : jsstring) (c : N) : option (mode * list token) :=
  if (c =? 34)%N then Some (MStr (34 :: acc)%N, [])
  else if (c =? 92)%N then Some (MStr (92 :: acc)%N, [])
  else if (c =? 47)%N then Some (MStr (47 :: acc)%N, [])
  else if (c =? 98)%N then Some (MStr (8 :: acc)%N, [])
  else if (c =? 102)%N then Some (MStr (12 :: acc)%N, [])
  else if (c =? 110)%N then Some (MStr (10 :: acc)%N, [])
  else if (c =? 114)%N then Some (MStr (13 :: acc)%N, [])
  else if (c =? 116)%N then Some (MStr (9 :: acc)%N, [])
  else if (c =? 117)%N then Some (MHex acc 0 0, [])
  else None.

Definition lex_step (c : N) (m : mode) : option (mode * list token) :=
  match m with
  | MIdle => lex_idle c
  | MStr acc =>
      if (c =? 34)%N then Some (MIdle, [TStr (rev acc)])
      else if (c =? 92)%N then Some (MEsc acc, [])
      else if (c <? 32)%N then None
      else Some (MStr (c :: acc), [])
  | MEsc acc => lex_escape acc c
  | MHex acc k v =>
      match hex_value c with
      | Some d =>
          if (k =? 3)%nat then Some (MStr ((v * 16 + d)%N :: acc), [])
          else Some (MHex acc (S k) (v * 16 + d), [])
      | None => None
      end
  | MNumber a => lex_number a c
  | MWord rest t =>
      match rest with
      | [] => None
      | x :: rest' =>
          if (c =? x)%N
          then match rest' with
               | [] => Some (MIdle, [t])
               | _ :: _ => Some (MWord rest' t, [])
               end
          else None
      end
  end.

Definition lex_end (m : mode) : option (list token) :=
  match m with
  | MIdle => Some []
  | MNumber a => if num_accepting a then Some [TNum (number_of a)] else None
  | MStr _ | MEsc _ | MHex _ _ _ | MWord _ _ => None
  end.

Fixpoint lex (s : jsstring) (m : mode) : option (list token) :=
  match s with
  | [] => lex_end m
  | c :: s' =>
      match lex_step c m with
      | Some (m', out) => option_map (app out) (lex s' m')
      | None => None
      end
  end.

(** The containers still open, innermost first; their parts are reversed. *)
Inductive frame :=
| FArr (done : list json)
| FObj (done : list (jsstring * json)) (key : jsstring).

Inductive pstate :=
| PValue            (* a value must follow *)
| PValueOrClose     (* just after an opening bracket *)
| PKeyOrClose       (* just after an opening brace *)
| PKey              (* after a comma inside an object *)
| PColon            (* after a key *)
| PAfter            (* after a value inside a container *)
| PDone (v : json). (* the top-level value is complete *)

Definition deliver (v : json) (stack : list frame) : pstate * list frame :=
  match stack with
  | [] => (PDone v, [])
  | FArr done :: st => (PAfter, FArr (v :: done) :: st)
  | FObj done k :: st => (PAfter, FObj ((k, v) :: done) k :: st)
  end.

Definition parse_value_token (allow_close : bool) (t : token)
    (stack : list frame) : option (pstate * list frame) :=
  match t with
  | TStr s => Some (deliver (JStr s) stack)
  | TNum n => Some (deliver (JNum n) stack)
  | TTrue => Some (deliver (JBool true) stack)
  | TFalse => Some (deliver (JBool false) stack)
  | TNull => Some (deliver JNull stack)
  | TLBracket => Some (PValueOrClose, FArr [] :: stack)
  | TLBrace => Some (PKeyOrClose, FObj [] [] :: stack)
  | TRBracket =>
      match allow_close, stack with
      | true, FArr done :: st => Some (deliver (JArr (rev done)) st)
      | _, _ => None
      end
  | TRBrace | TColon | TComma => None
  end.

Definition parse_key_token (allow_close : bool) (t : token)
    (stack : list frame) : option (pstate * list frame) :=
  match t, stack with
  | TStr k, FObj done _ :: st => Some (PColon, FObj done k :: st)
  | TRBrace, FObj done _ :: st =>
      if allow_close then Some (deliver (JObj (rev done)) st) else None
  | _, _ => None
  end.

Definition parse_step (t : token) (ps : pstate * list frame)
    : option (pstate * list frame) :=
  let (p, stack) := ps in
  match p with
  | PValue => parse_value_token false t stack
  | PValueOrClose => parse_value_token true t stack
  | PKeyOrClose => parse_key_token true t stack
  | PKey => parse_key_token false t stack
  | PColon => match t with TColon => Some (PValue, stack) | _ => None end
  | PAfter =>
      match t, stack with
      | TComma, FArr _ :: _ => Some (PValue, stack)
      | TComma, FObj _ _ :: _ => Some (PKey, stack)
      | TRBracket, FArr done :: st => Some (deliver (JArr (rev done)) st)
      | TRBrace, FObj done _ :: st => Some (deliver (JObj (rev done)) st)
      | _, _ => None
      end
  | PDone _ => None
  end.

Fixpoint parse_tokens (ts : list token) (ps : pstate * list frame)
    : option json :=
  match ts with
  | [] => match ps with (PDone v, []) => Some v | _ => None end
  | t :: ts' =>
      match parse_step t ps with
      | Some ps' => parse_tokens ts' ps'
      | None => None
      end
  end.

Definition JSON_parse (text : jsstring) : option json :=
  match lex text MIdle with
  | Some ts => parse_tokens ts (PValue, [])
  | None => None
  end.

(** ** What the runtime does with numbers

    Printing a double and comparing two doubles are the runtime's; the model
    takes them as given. *)

Record Runtime := mkRuntime {
  Number_toString : Number -> jsstring;
  Number_equal : Number -> Number -> bool
}.

(** ToString, as a template literal or [+=] on a string applies it. *)
Fixpoint ToString (rt : Runtime) (v : json) : jsstring :=
  match v with
  | JNull => lit "null"
  | JBool true => lit "true"
  | JBool false => lit "false"
  | JNum n => Number_toString rt n
  | JStr s => s
  | JArr items =>
      join (lit ",")
           (map (fun x => match x with JNull => [] | _ => ToString rt x end)
                items)
  | JObj _ => lit "[object Object]"
  end.

(** [a === b].  Two arrays or two objects are equal only as one and the same
    reference; no call site passes the same reference on both sides. *)
Definition strict_equal (rt : Runtime) (a b : json) : bool :=
  match a, b with
  | JNull, JNull => true
  | JBool x, JBool y => Bool.eqb x y
  | JNum x, JNum y => Number_equal rt x y
  | JStr x, JStr y => str_eqb x y
  | _, _ => false
  end.

(** ** [encodeURIComponent]

    Unreserved ASCII units stay; every other code point is written as the
    percent-escaped bytes of its UTF-8 form; a lone surrogate is a URIError
    ([None]). *)

Definition uri_unreserved (c : N) : bool :=
  (((65 <=? c) && (c <=? 90)) || ((97 <=? c) && (c <=? 122)) || is_digit c
   || (c =? 45) || (c =? 95) || (c =? 46) || (c =? 33) || (c =? 126)
   || (c =? 42) || (c =? 39) || (c =? 40) || (c =? 41))%N.

Definition utf8 (cp : N) : list N :=
  (if cp <? 128 then [cp]
   else if cp <? 2048 then [192 + cp / 64; 128 + cp mod 64]
   else if cp <? 65536 then
     [224 + cp / 4096; 128 + (cp / 64) mod 64; 128 + cp mod 64]
   else [240 + cp / 262144; 128 + (cp / 4096) mod 64;
         128 + (cp / 64) mod 64; 128 + cp mod 64])%N.

Definition hex_digit (n : N) : N := (if n <? 10 then 48 + n else 55 + n)%N.

Definition percent (byte : N) : list N :=
  [37%N; hex_digit (byte / 16); hex_digit (byte mod 16)].

Fixpoint encodeURIComponent (s : jsstring) : option jsstring :=
  match s with
  | [] => Some []
  | c :: s' =>
      if uri_unreserved c then option_map (cons c) (encodeURIComponent s')
      else if ((56320 <=? c) && (c <=? 57343))%N then None
      else if ((55296 <=? c) && (c <=? 56319))%N then
        match s' with
        | d :: s'' =>
            if ((56320 <=? d) && (d <=? 57343))%N
            then option_map
                   (app (flat_map percent
                           (utf8 ((c - 55296) * 1024 + (d - 56320) + 65536)%N)))
                   (encodeURIComponent s'')
            else None
        | [] => None
        end
      else option_map (app (flat_map percent (utf8 c))) (encodeURIComponent s')
  end.

(** ** Calls to the outside

    The calls a handler issues, in the order it issues them. *)

Inductive Event :=
| Fetch (url : jsstring)               (* [fetch(url)], a GET *)
| FetchGenerate (prompt : jsstring)    (* the POST to api.cohere.ai/v1/generate *)
| CohereChat (message : jsstring)      (* [co.chat({ message, ... })] *)
| UserFindOne (userId : jsstring)
| ChatHistoryFind (userId : jsstring)
| ChatHistoryCreate (doc : json)
| TrainingEntryCreate (doc : json)
| WriteTrainingFile (arr : list json). (* [writeFileSync(TRAINING_FILE,
                                           JSON.stringify(arr, null, 2))] *)

(** A computation that issues calls: its value and its trace. *)
Definition M (A : Type) : Type := (A * list Event)%type.

Definition ret {A : Type} (a : A) : M A := (a, []).

Definition bind {A B : Type} (m : M A) (k : A -> M B) : M B :=
  let (a, t) := m in
  let (b, t') := k a in
  (b, t ++ t').

Definition call (e : Event) : M unit := (tt, [e]).

Notation "x <- m ;; k" := (bind m (fun x => k))
  (at level 61, m at next level, right associativity).
Notation "m ;;; k" := (bind m (fun _ => k))
  (at level 61, right associativity).

Definition value {A : Type} (m : M A) : A := fst m.
Definition trace {A : Type} (m : M A) : list Event := snd m.

(** What a [fetch] comes to: a rejection (network error, or the abort of the
    5 s timer), or a response with its [ok] flag and its body. *)
Inductive FetchOutcome :=
| Rejected
| Response (ok : bool) (body : jsstring).

(** What [co.chat] comes to: it throws or rejects (or its result has no
    string [text]), or it answers with [response.text]. *)
Inductive ChatOutcome :=
| ChatFails
| ChatText (text : jsstring).

(** What [User.findOne] comes to. *)
Inductive UserLookup :=
| LookupFails
| NoUser
| UserDoc (role : option jsstring).

(** A stored ChatHistory document, as far as the handler reads it. *)
Record Chat := mkChat { chat_userMessage : jsstring; chat_botReply : jsstring }.

(** The training file as [saveTrainingEntry] finds it. *)
Inductive FileState :=
| NoFile                    (* [existsSync] is false *)
| Unreadable                (* [readFileSync] throws *)
| FileText (raw : jsstring).

Record Env := mkEnv {
  runtime : Runtime;
  COHERE_API_KEY : option jsstring;  (* [process.env.COHERE_API_KEY] *)
  cohere_client : bool;              (* [require('cohere-ai')] gives a client *)
  user_lookup : UserLookup;
  detect_response : FetchOutcome;
  translate_in_response : FetchOutcome;
  previousChats : option (list Chat); (* [None]: [ChatHistory.find] rejects *)
  chat_response : ChatOutcome;
  training_file : FileState;
  now_iso : jsstring;                (* [new Date().toISOString()] *)
  mood_response : FetchOutcome;
  translate_out_response : FetchOutcome
}.

(** [!COHERE_API_KEY] is false. *)
Definition configured (key : option jsstring) : bool :=
  match key with
  | Some (_ :: _) => true
  | Some [] | None => false
  end.

Definition en : json := JStr (lit "en").

Definition translate_endpoint : jsstring :=
  lit "https://translate.googleapis.com/translate_a/single?client=gtx&sl=".

(** ** [detectLanguage] (the same in both files) *)

Definition detectLanguage (text : jsstring) (r : FetchOutcome) : M json :=
  match encodeURIComponent text with
  | None => ret en
  | Some q =>
      call (Fetch (translate_endpoint ++ lit "auto&tl=en&dt=t&q=" ++ q)) ;;;
      ret match r with
          | Rejected => en
          | Response false _ => en
          | Response true body =>
              match JSON_parse body with
              | None => en
              | Some data =>
                  if truthy data
                  then match get_index 2 data with
                       | Some v => if truthy v then v else en
                       | None => en
                       end
                  else en
              end
          end
  end.

(** The body of [translate] once [source === target] has failed. *)
Definition translated_of (rt : Runtime) (data : json) (text : jsstring)
    : jsstring :=
  if negb (truthy data) then text
  else match get_index 0 data with
       | Some (JArr chunks) =>
           str_or
             (fold_left
                (fun translated chunk =>
                   if truthy chunk && truthy_opt (get_index 0 chunk)
                   then translated
                        ++ match get_index 0 chunk with
                           | Some piece => ToString rt piece
                           | None => []
                           end
                   else translated)
                chunks [])
             text
       | _ => text
       end.

Definition fetch_translation (rt : Runtime) (text : jsstring)
    (source target : json) (r : FetchOutcome) : M jsstring :=
  match encodeURIComponent text with
  | None => ret text
  | Some q =>
      call (Fetch (translate_endpoint ++ ToString rt source ++ lit "&tl="
                   ++ ToString rt target ++ lit "&dt=t&q=" ++ q)) ;;;
      ret match r with
          | Rejected => text
          | Response false _ => text
          | Response true body =>
              match JSON_parse body with
              | None => text
              | Some data => translated_of rt data text
              end
          end
  end.

(** ** [callCohereAnalyzeMood]

    Both files have it, with a prompt of their own and the same steps. *)

(** [data?.generations?.[0]?.text || '']. *)
Definition generation_text (data : json) : json :=
  let o := chain (chain (chain (Some data) (get_field (lit "generations")))
                        (get_index 0))
                 (get_field (lit "text")) in
  match o with
  | Some v => if truthy v then v else JStr []
  | None => JStr []
  end.

(** The text handed to [JSON.parse]: [text.trim()], from its first brace on
    when it has one. *)
Definition json_candidate (text : jsstring) : jsstring :=
  let text := trim text in
  match indexOf 123 text with
  | Some jsonStart => slice jsonStart text
  | None => text
  end.

(** [parsed && (parsed.mood || parsed.habits)]. *)
Definition basic_validation (parsed : json) : bool :=
  truthy parsed
  && (truthy_opt (get_field (lit "mood") parsed)
      || truthy_opt (get_field (lit "habits") parsed)).

(** From the response on; [None] is [null]. *)
Definition mood_of_response (r : FetchOutcome) : option json :=
  match r with
  | Rejected => None
  | Response false _ => None
  | Response true body =>
      match JSON_parse body with
      | None => None
      | Some data =>
          match generation_text data with
          | JStr text =>
              match JSON_parse (json_candidate text) with
              | Some parsed =>
                  if basic_validation parsed then Some parsed else None
              | None => None
              end
          | _ => None       (* [text.trim] is not a function *)
          end
      end
  end.

Definition analyze_with (moodPrompt : jsstring -> jsstring)
    (key : option jsstring) (userText : jsstring) (r : FetchOutcome)
    : M (option json) :=
  if negb (configured key) then ret None
  else call (FetchGenerate (moodPrompt userText)) ;;; ret (mood_of_response r).

(** ** Reading a trace *)

(** The [message] of every [co.chat] request. *)
Definition chat_requests (tr : list Event) : list jsstring :=
  flat_map (fun e => match e with CohereChat m => [m] | _ => [] end) tr.

(** The document of every [TrainingEntry.create]. *)
Definition training_creates (tr : list Event) : list json :=
  flat_map (fun e => match e with TrainingEntryCreate d => [d] | _ => [] end) tr.

(** The array of every write of the training file. *)
Definition file_writes (tr : list Event) : list (list json) :=
  flat_map (fun e => match e with WriteTrainingFile a => [a] | _ => [] end) tr.

(** The prompt of every POST to the generate endpoint. *)
Definition generate_prompts (tr : list Event) : list jsstring :=
  flat_map (fun e => match e with FetchGenerate p => [p] | _ => [] end) tr.

(** A block that issues at most one call, a GET. *)
Definition at_most_a_fetch (tr : list Event) : Prop :=
  tr = [] \/ exists url, tr = [Fetch url].

(** ** The shape the specification gives a MoodAnalysis

    Written from the specification, to compare with what the extractor lets
    through: [mood] is one of nine labels, [habits] is a sequence of at most
    three objects that each have a [title] and a [description]. *)

Definition MOOD_LABELS : list jsstring :=
  map lit ["happy"; "sad"; "anxious"; "stressed"; "neutral"; "angry"; "tired";
           "depressed"; "hopeful"]%string.

Definition is_habit (v : json) : bool :=
  match get_field (lit "title") v, get_field (lit "description") v with
  | Some _, Some _ => true
  | _, _ => false
  end.

Definition well_formed_analysis (v : json) : bool :=
  match get_field (lit "mood") v, get_field (lit "habits") v with
  | Some (JStr mood), Some (JArr habits) =>
      existsb (str_eqb mood) MOOD_LABELS
      && (List.length habits <=? 3)
      && forallb is_habit habits
  | _, _ => false
  end.

(** ** Requests and the fixed replies *)

(** The request body (REST) or payload (socket).  A missing [userId] or
    [message] and an empty one take the same branch, so both are the empty
    string here; [lang] is [None] when the field is left out. *)
Record Request := mkRequest {
  userId : jsstring;
  message : jsstring;
  lang : option jsstring
}.

(** [const { ..., lang = "auto" } = ...]. *)
Definition lang_or_auto (req : Request) : jsstring :=
  match lang req with
  | Some l => l
  | None => lit "auto"
  end.

(** [sourceLang !== "en"] is false. *)
Definition is_en (v : json) : bool :=
  match v with
  | JStr s => str_eqb s (lit "en")
  | _ => false
  end.

Definition SORRY : jsstring :=
  lit "I'm sorry, I'm having trouble responding right now. Please try again in a moment.".

Definition UNAVAILABLE : jsstring :=
  lit "Service temporarily unavailable. Please try again later.".

Definition src_cohere : jsstring := lit "cohere".
Definition src_error : jsstring := lit "error".
Definition src_default : jsstring := lit "default".

(** ** The REST route, [routes/chatbotRoutes] *)

Module Route.

(** The local variables of one turn, as they stand when the response is
    assembled. *)
Record Turn := mkTurn {
  t_userRole : jsstring;
  t_sourceLang : json;
  t_translatedText : jsstring;
  t_preferCohere : bool;
  t_prompt : jsstring;
  t_botReply : jsstring;
  t_source : jsstring;
  t_moodAnalysis : option json;
  t_finalReply : jsstring
}.

(** [saveTrainingEntry].  [triggerTrainingUpdate], which it calls last,
    starts nothing: [spawn] is bound nowhere in the file, so the call throws
    inside its own [try] whenever the script exists. *)
Definition saveTrainingEntry (entry : json) (file : FileState) : M unit :=
  match file with
  | NoFile => call (WriteTrainingFile ([] ++ [entry]))
  | Unreadable => ret tt
  | FileText raw =>
      if is_empty raw then call (WriteTrainingFile ([] ++ [entry]))
      else match JSON_parse raw with
           | Some (JArr arr) => call (WriteTrainingFile (arr ++ [entry]))
           | Some _ => ret tt      (* [arr.push] is not a function *)
           | None => ret tt        (* SyntaxError *)
           end
  end.

Definition systemPrompt : jsstring :=
  join nl
    [lit "You are SnoRelax, a compassionate AI assistant focused on mental health, stress relief, and promoting healthy lifestyles. Your responses should:";
     [];
     lit "1. Show empathy and understanding for users' feelings";
     lit "2. Provide practical, evidence-based suggestions for stress management";
     lit "3. Encourage healthy habits like exercise, meditation, and good sleep";
     lit "4. Promote seeking professional help when appropriate";
     lit "5. Keep responses supportive, positive, and medically appropriate";
     lit "6. Focus on wellness, mindfulness, and emotional well-being";
     lit "7. Avoid giving medical diagnoses or prescribing treatments";
     [];
     lit "Always respond as a caring health companion who guides users toward better mental and physical wellness."].

(** The [message] field of the [co.chat] request. *)
Definition chat_message (message : jsstring) : jsstring :=
  systemPrompt ++ nl ++ nl ++ lit "User: " ++ message ++ nl ++ nl
  ++ lit "Assistant:".

(** [callCohereGenerate]; [None] is a throw. *)
Definition callCohereGenerate (key : option jsstring) (client : bool)
    (message : jsstring) (r : ChatOutcome) : M (option jsstring) :=
  if negb (configured key) then ret None
  else if negb client then ret None
  else call (CohereChat (chat_message message)) ;;;
       ret match r with
           | ChatFails => None
           | ChatText text => Some (trim text)
           end.

Definition moodPrompt (userText : jsstring) : jsstring :=
  join nl
    [lit "You are a compassionate mental health assistant. Analyze the user's short message and return a JSON object with two fields:";
     bq "1) `mood`: a single-word mood label (one of: happy, sad, anxious, stressed, neutral, angry, tired, depressed, hopeful) that best summarizes the user's current emotional state.";
     bq "2) `habits`: an array of up to 3 habit suggestion objects. Each habit suggestion should have `title` (short phrase) and `description` (one sentence practical tip). Keep descriptions concise.";
     [];
     lit "Input message:";
     bq "```";
     userText;
     bq "```";
     [];
     lit "Return ONLY valid JSON. Example:";
     bq "{`mood`:`anxious`,`habits`:[{`title`:`Short breathing breaks`,`description`:`Take 3 deep breaths every hour to ground yourself.`},{`title`:`Move for 5 minutes`,`description`:`Stand up and walk or stretch for 5 minutes to reduce tension.`}]}";
     []].

Definition callCohereAnalyzeMood := analyze_with moodPrompt.

(** [translate]. *)
Definition translate (rt : Runtime) (text : jsstring) (source target : json)
    (r : FetchOutcome) : M jsstring :=
  if strict_equal rt source target then ret text
  else fetch_translation rt text source target r.

Definition DEFAULT : jsstring :=
  lit "I'm here to listen and support you. " ++ [55356%N; 57137%N]
  ++ lit " What's on your mind?".

(** The history as a prompt.  The handler builds it and never reads it. *)
Definition build_prompt (previousChats : list Chat) (translatedText : jsstring)
    : jsstring :=
  let prompt :=
    join nl
      (map (fun chat => lit "User: " ++ chat_userMessage chat ++ nl
                        ++ lit "Bot: " ++ chat_botReply chat)
           previousChats) in
  let prompt := if is_empty prompt then prompt else prompt ++ nl in
  prompt ++ lit "User: " ++ translatedText ++ nl ++ lit "Bot:".

(** "Bot Logic (Cohere AI Only)" and "Default friendly response".  Between
    the two the file still holds the tail of a removed second provider
    (lines 278-287): it reads [hfRes], which nothing binds, and closes two
    braces that nothing opened, so the file does not parse with it.  The
    handler is read without those lines, as the socket's copy of the chain
    has it. *)
Definition bot_logic (env : Env) (translatedText : jsstring)
    : M (jsstring * jsstring) :=
  attempt <-
    (if configured (COHERE_API_KEY env)
     then r <- callCohereGenerate (COHERE_API_KEY env) (cohere_client env)
                 translatedText (chat_response env) ;;
          ret match r with
              | Some reply => (reply, src_cohere)
              | None => (SORRY, src_error)
              end
     else ret (UNAVAILABLE, src_error)) ;;
  ret (if is_empty (fst attempt) then (DEFAULT, src_default) else attempt).

Definition find_user_role (env : Env) (req : Request) : M jsstring :=
  call (UserFindOne (userId req)) ;;;
  ret match user_lookup env with
      | UserDoc (Some role) => str_or role (lit "user")
      | UserDoc None | NoUser | LookupFails => lit "user"
      end.

Definition history_doc (req : Request) (botReply : jsstring)
    (sourceLang : json) : json :=
  JObj [(lit "userId", JStr (userId req));
        (lit "userMessage", JStr (message req));
        (lit "botReply", JStr botReply);
        (lit "language", sourceLang)].

Definition trainingData (env : Env) (req : Request) (botReply : jsstring)
    (sourceLang : json) (source : jsstring) : json :=
  JObj [(lit "userId", JStr (userId req));
        (lit "userMessage", JStr (message req));
        (lit "botReply", JStr botReply);
        (lit "language", sourceLang);
        (lit "source", JStr source);
        (lit "timestamp", JStr (now_iso env))].

Definition training_doc (req : Request) (botReply : jsstring)
    (sourceLang : json) (source : jsstring) : json :=
  JObj [(lit "userId", JStr (userId req));
        (lit "userMessage", JStr (message req));
        (lit "botReply", JStr botReply);
        (lit "language", sourceLang);
        (lit "source", JStr source);
        (lit "processed", JBool false)].

(** "Auto detect": [sourceLang]. *)
Definition resolve_language (env : Env) (req : Request) : M json :=
  if str_eqb (lang_or_auto req) (lit "auto")
  then detectLanguage (message req) (detect_response env)
  else ret (JStr (lang_or_auto req)).

(** "translate to English": [translatedText]. *)
Definition to_english (env : Env) (req : Request) (sourceLang : json)
    : M jsstring :=
  if negb (is_en sourceLang)
  then translate (runtime env) (message req) sourceLang en
         (translate_in_response env)
  else ret (message req).

(** "Save Chat History" and "Save Training File": the history document, the
    training file, and the training document when the reply came from Cohere
    or the message was flagged. *)
Definition record_turn (env : Env) (req : Request) (sourceLang : json)
    (preferCohere : bool) (botReply source : jsstring) : M unit :=
  call (ChatHistoryCreate (history_doc req botReply sourceLang)) ;;;
  saveTrainingEntry (trainingData env req botReply sourceLang source)
                    (training_file env) ;;;
  (if str_eqb source src_cohere || preferCohere
   then call (TrainingEntryCreate (training_doc req botReply sourceLang source))
   else ret tt).

(** "Translate Bot Reply Back": [finalReply]. *)
Definition translate_back (env : Env) (sourceLang : json) (botReply : jsstring)
    : M jsstring :=
  if negb (is_en sourceLang)
  then translate (runtime env) botReply en sourceLang
         (translate_out_response env)
  else ret botReply.

(** The body of the outer [try], for a request that passed the first test;
    [None] when [ChatHistory.find] rejects and the outer [catch] takes over. *)
Definition turn (env : Env) (req : Request) : M (option Turn) :=
  userRole <- find_user_role env req ;;
  sourceLang <- resolve_language env req ;;
  translatedText <- to_english env req sourceLang ;;
  let preferCohere := preferCohere translatedText in
  call (ChatHistoryFind (userId req)) ;;;
  match previousChats env with
  | None => ret None
  | Some previousChats =>
      let prompt := build_prompt previousChats translatedText in
      reply <- bot_logic env translatedText ;;
      let botReply := fst reply in
      let source := snd reply in
      record_turn env req sourceLang preferCohere botReply source ;;;
      moodAnalysis <- callCohereAnalyzeMood (COHERE_API_KEY env) (message req)
                        (mood_response env) ;;
      finalReply <- translate_back env sourceLang botReply ;;
      ret (Some (mkTurn userRole sourceLang translatedText preferCohere prompt
                        botReply source moodAnalysis finalReply))
  end.

(** [resp], with [moodAnalysis] attached only when it is truthy. *)
Definition resp (t : Turn) : json :=
  JObj ([(lit "sender", JStr (lit "bot"));
         (lit "text", JStr (t_finalReply t));
         (lit "role", JStr (t_userRole t))]
        ++ match t_moodAnalysis t with
           | Some moodAnalysis => [(lit "moodAnalysis", moodAnalysis)]
           | None => []
           end).

Record Reply := mkReply { status : nat; body : json }.

(** [router.post("/")]. *)
Definition post (env : Env) (req : Request) : M Reply :=
  if is_empty (message req) || is_empty (userId req)
  then ret (mkReply 400
              (JObj [(lit "error", JStr (lit "Message and userId required"))]))
  else
    t <- turn env req ;;
    ret match t with
        | Some t => mkReply 200 (resp t)
        | None =>
            mkReply 500
              (JObj [(lit "sender", JStr (lit "bot"));
                     (lit "text", JStr ([9888%N; 65039%N]
                                        ++ lit " Sorry, bot unavailable."))])
        end.

End Route.

(** ** The socket handler, [sockets/chatbotSocket.js] *)

Module Socket.

(** The local variables of one turn, as they stand when the response is
    assembled. *)
Record Turn := mkTurn {
  t_sourceLang : json;
  t_translatedText : jsstring;
  t_botReply : jsstring;
  t_source : jsstring;
  t_moodAnalysis : option json;
  t_finalReply : jsstring
}.

(** [translate]. *)
Definition translate (rt : Runtime) (text : jsstring) (source target : json)
    (r : FetchOutcome) : M jsstring :=
  if is_empty text then ret text
  else if strict_equal rt source target then ret text
  else fetch_translation rt text source target r.

Definition systemPrompt : jsstring :=
  lit "You are SnoRelax, a compassionate AI assistant focused on mental health, stress relief, and promoting healthy lifestyles. Keep responses supportive, positive, brief, and do not provide medical diagnoses.".

Definition chat_message (message : jsstring) : jsstring :=
  systemPrompt ++ nl ++ nl ++ lit "User: " ++ message ++ nl ++ nl
  ++ lit "Assistant:".

(** [callCohereGenerate]; [None] is a throw. *)
Definition callCohereGenerate (key : option jsstring) (client : bool)
    (message : jsstring) (r : ChatOutcome) : M (option jsstring) :=
  if negb (configured key) || negb client then ret None
  else call (CohereChat (chat_message message)) ;;;
       ret match r with
           | ChatFails => None
           | ChatText text => Some (trim text)
           end.

Definition moodPrompt (userText : jsstring) : jsstring :=
  join nl
    [lit "You are a compassionate mental health assistant. Analyze the user's short message and return a JSON object with two fields:";
     bq "1) `mood`: a single-word mood label (one of: happy, sad, anxious, stressed, neutral, angry, tired, depressed, hopeful)";
     bq "2) `habits`: an array of up to 3 habit suggestion objects with `title` and `description`. Return ONLY valid JSON.";
     [];
     lit "Input message:";
     bq "```";
     userText;
     bq "```";
     []].

Definition callCohereAnalyzeMood := analyze_with moodPrompt.

Definition DEFAULT : jsstring :=
  lit "I'm here to listen and support you. What's on your mind?".

Definition bot_logic (env : Env) (translatedText : jsstring)
    : M (jsstring * jsstring) :=
  attempt <-
    (if configured (COHERE_API_KEY env)
     then r <- callCohereGenerate (COHERE_API_KEY env) (cohere_client env)
                 translatedText (chat_response env) ;;
          ret match r with
              | Some reply => (reply, src_cohere)
              | None => (SORRY, src_error)
              end
     else ret (UNAVAILABLE, src_error)) ;;
  ret (if is_empty (fst attempt) then (DEFAULT, src_default) else attempt).

Definition history_doc (req : Request) (botReply : jsstring)
    (sourceLang : json) : json :=
  JObj [(lit "userId", JStr (userId req));
        (lit "userMessage", JStr (message req));
        (lit "botReply", JStr botReply);
        (lit "language", sourceLang)].

Definition training_doc (req : Request) (botReply : jsstring)
    (sourceLang : json) (source : jsstring) : json :=
  JObj [(lit "userId", JStr (userId req));
        (lit "userMessage", JStr (message req));
        (lit "botReply", JStr botReply);
        (lit "language", sourceLang);
        (lit "source", JStr source)].

(** "detect language": [sourceLang]. *)
Definition resolve_language (env : Env) (req : Request) : M json :=
  if str_eqb (lang_or_auto req) (lit "auto")
  then detectLanguage (message req) (detect_response env)
  else ret (JStr (lang_or_auto req)).

(** "translate to en": [translatedText]. *)
Definition to_english (env : Env) (req : Request) (sourceLang : json)
    : M jsstring :=
  if negb (is_en sourceLang)
  then translate (runtime env) (message req) sourceLang en
         (translate_in_response env)
  else ret (message req).

(** "save history" and "save training entry". *)
Definition record_turn (req : Request) (sourceLang : json)
    (botReply source : jsstring) : M unit :=
  call (ChatHistoryCreate (history_doc req botReply sourceLang)) ;;;
  (if str_eqb source src_cohere
   then call (TrainingEntryCreate (training_doc req botReply sourceLang source))
   else ret tt).

(** "translate reply back": [finalReply]. *)
Definition translate_back (env : Env) (sourceLang : json) (botReply : jsstring)
    : M jsstring :=
  if negb (is_en sourceLang)
  then translate (runtime env) botReply en sourceLang
         (translate_out_response env)
  else ret botReply.

(** The handler from the language detection on, for a payload that passed
    the first test. *)
Definition turn (env : Env) (req : Request) : M Turn :=
  sourceLang <- resolve_language env req ;;
  translatedText <- to_english env req sourceLang ;;
  reply <- bot_logic env translatedText ;;
  let botReply := fst reply in
  let source := snd reply in
  record_turn req sourceLang botReply source ;;;
  moodAnalysis <- callCohereAnalyzeMood (COHERE_API_KEY env) (message req)
                    (mood_response env) ;;
  finalReply <- translate_back env sourceLang botReply ;;
  ret (mkTurn sourceLang translatedText botReply source moodAnalysis
              finalReply).

(** [resp = { sender: 'bot', text: finalReply, moodAnalysis }]: the key is
    always there, with [null] when there is no analysis. *)
Definition resp (t : Turn) : json :=
  JObj [(lit "sender", JStr (lit "bot"));
        (lit "text", JStr (t_finalReply t));
        (lit "moodAnalysis",
         match t_moodAnalysis t with
         | Some moodAnalysis => moodAnalysis
         | None => JNull
         end)].

(** [socket.emit(event, payload)]. *)
Record Emitted := mkEmitted { event : jsstring; payload : json }.

(** The [chatbotMessage] listener; [None] is a payload that is [null] or
    [undefined]. *)
Definition chatbotMessage (env : Env) (payload : option Request) : M Emitted :=
  let req := match payload with
             | Some req => req
             | None => mkRequest [] [] None
             end in
  if is_empty (userId req) || is_empty (message req)
  then ret (mkEmitted (lit "chatbotError")
              (JObj [(lit "error", JStr (lit "userId and message required"))]))
  else
    t <- turn env req ;;
    ret (mkEmitted (lit "chatbotResponse") (resp t)).

End Socket.

(** ** The server entry *)

Module Server.

Definition allowedOrigins : list jsstring :=
  map lit ["https://sno-relax-client.vercel.app";
           "https://sno-relax-admin.vercel.app";
           "http://localhost:3000";
           "http://localhost:3001";
           "http://127.0.0.1:3001";
           "http://127.0.0.1:3000"]%string.

(** The [origin] function of the CORS options: [true] is
    [callback(null, true)], [false] is the callback with the error.  [None]
    is a request without an Origin header. *)
Definition cors_origin (origin : option jsstring) : bool :=
  match origin with
  | None => true
  | Some origin =>
      if is_empty origin then true
      else existsb (fun allowed => starts_with allowed origin) allowedOrigins
  end.

(** The URL normalizer, [req.url.replace(/\/\/+/g, '/')]: of every run of
    two or more slashes only the last stays. *)
Fixpoint normalize_url (url : jsstring) : jsstring :=
  match url with
  | [] => []
  | c :: rest =>
      match rest with
      | d :: _ =>
          if ((c =? 47) && (d =? 47))%N then normalize_url rest
          else c :: normalize_url rest
      | [] => [c]
      end
  end.

(** What the [error] listener makes of one [server.listen(port)]. *)
Inductive ListenResult :=
| Listening          (* no error event *)
| AddressInUse       (* an error with code EADDRINUSE *)
| OtherError.        (* any other error *)

Inductive Startup :=
| Serving (port : N)
| Exited.            (* [process.exit(1)] *)

(** [startServer(port, attemptsLeft)]; [listen] says how each port answers. *)
Fixpoint startServer (listen : N -> ListenResult) (port : N)
    (attemptsLeft : nat) : Startup :=
  match listen port with
  | Listening => Serving port
  | OtherError => Exited
  | AddressInUse =>
      match attemptsLeft with
      | S attempts => startServer listen (port + 1) attempts
      | O => Exited
      end
  end.

End Server.

(** ** The admin token: [middleware/adminAuth.js] and the admin login *)

Module Admin.

Inductive AuthOutcome :=
| Next                                   (* [next()] *)
| Refused (status : nat) (body : json).  (* [res.status(..).json(..)] *)

Definition unauthorized : AuthOutcome :=
  Refused 401
    (JObj [(lit "error",
            JStr (lit "Unauthorized: Invalid or missing admin token"))]).

(** [authHeader && authHeader.startsWith('Bearer ')
     ? authHeader.substring(7) : null]. *)
Definition bearer_token (authorization : option jsstring) : option jsstring :=
  match authorization with
  | Some authHeader =>
      if negb (is_empty authHeader) && starts_with (lit "Bearer ") authHeader
      then Some (slice 7 authHeader)
      else None
  | None => None
  end.

(** The middleware; [authorization] is [req.headers.authorization]. *)
Definition adminAuth (authorization : option jsstring) : AuthOutcome :=
  match bearer_token authorization with
  | Some token =>
      if negb (is_empty token) && starts_with (lit "admin-token-") token
      then Next
      else unauthorized
  | None => unauthorized
  end.

(** [String(n)] for a time in milliseconds, a whole number. *)
Definition decimal (n : N) : jsstring :=
  lit (NilZero.string_of_uint (N.to_uint n)).

Record Reply := mkReply { status : nat; body : json }.

(** [router.post('/login')] of the admin routes; [adminId] and [password] are
    the fields of the body, [None] when left out, [now] is [Date.now()]. *)
Definition login (adminId password : option json) (now : N) : Reply :=
  match adminId, password with
  | Some (JStr id), Some (JStr pw) =>
      if str_eqb id (lit "admin") && str_eqb pw (lit "pass")
      then mkReply 200
             (JObj [(lit "token", JStr (lit "admin-token-" ++ decimal now));
                    (lit "adminId", JStr id);
                    (lit "message", JStr (lit "Login successful"))])
      else mkReply 401
             (JObj [(lit "error", JStr (lit "Invalid admin credentials"))])
  | _, _ =>
      mkReply 401
        (JObj [(lit "error", JStr (lit "Invalid admin credentials"))])
  end.

End Admin.

(** ** The guide of the AI routes, [routes/aiRoutes] *)

Module Ai.


(** [a || b] on values that may be [undefined]. *)
Definition or_else (a b : option json) : option json :=
  if truthy_opt a then a else b.

(** [v || ''], then ToString. *)
Definition text_of (rt : Runtime) (v : option json) : jsstring :=
  match or_else v (Some (JStr [])) with
  | Some w => ToString rt w
  | None => []
  end.










(** The prompt [callCohereGuide] sends. *)
Definition enhanced (prompt : jsstring) : jsstring :=
  bq "You are SnoBot, a compassionate mental health assistant. Given the user's concise history and mood data, produce a short JSON object with keys: summary (one short paragraph), urgent (true/false), recommendations (array of objects with title, type(`yoga`|`exercise`|`breathing`|`lifestyle`), durationMinutes, intensity(`low`|`moderate`|`high`), steps (array of short step instructions)). Keep responses safe and do not provide medical diagnoses. User data:"
  ++ nl ++ prompt ++ nl ++ lit "Respond ONLY with valid JSON.".

(** [s.split('\n')[0]]. *)
Fixpoint first_line (s : jsstring) : jsstring :=
  match s with
  | [] => []
  | c :: s' => if (c =? 10)%N then [] else c :: first_line s'
  end.

(** The structure returned when the generated text does not parse. *)
Definition fallback (text : jsstring) : json :=
  JObj [(lit "summary", JStr (str_or (first_line (trim text)) []));
        (lit "urgent", JBool false);
        (lit "recommendations", JArr [])].

(** [text.slice(text.indexOf('{'))], or [text] when there is no brace. *)
Definition jsonText_of (text : jsstring) : jsstring :=
  match indexOf 123 text with
  | Some jsonStart => slice jsonStart text
  | None => text
  end.

(** The same on an array: [indexOf] looks for an element that is the string
    of one brace. *)
Fixpoint from_brace_element (items : list json) : option (list json) :=
  match items with
  | [] => None
  | item :: rest =>
      match item with
      | JStr [123%N] => Some items
      | _ => from_brace_element rest
      end
  end.

(** From the generated text on; [None] is a throw.  A text that is an array
    has [indexOf] and [slice] too, and [JSON.parse] reads its ToString, but
    no [trim] for the fallback; any other value that is not a string has no
    [indexOf]. *)
Definition guide_of_text (rt : Runtime) (text : json) : option json :=
  match text with
  | JStr s =>
      Some match JSON_parse (jsonText_of s) with
           | Some obj => obj
           | None => fallback s
           end
  | JArr items =>
      JSON_parse
        (ToString rt (JArr match from_brace_element items with
                           | Some tail => tail
                           | None => items
                           end))
  | _ => None
  end.

(** [callCohereGuide]; [None] is a throw. *)
Definition callCohereGuide (rt : Runtime) (key : option jsstring)
    (prompt : jsstring) (r : FetchOutcome) : M (option json) :=
  if negb (configured key) then ret None
  else
    call (FetchGenerate (enhanced prompt)) ;;;
    ret match r with
        | Rejected => None
        | Response false _ => None
        | Response true body =>
            match JSON_parse body with
            | Some data => guide_of_text rt (generation_text data)
            | None => None
            end
        end.




End Ai.

(** ** The admin popup (routes/adminRoutes) *)

Module Popup.

(** [{ content: '', version: '1' }]. *)
Definition DEFAULT : json :=
  JObj [(lit "content", JStr []); (lit "version", JStr (lit "1"))].

(** [readPopup]: the default when the file is missing and when reading or
    parsing throws; otherwise whatever [JSON.parse(raw || '{}')] gives. *)
Definition readPopup (file : FileState) : json :=
  match file with
  | NoFile => DEFAULT
  | Unreadable => DEFAULT
  | FileText raw =>
      match JSON_parse (str_or raw (lit "{}")) with
      | Some p => p
      | None => DEFAULT
      end
  end.

(** [o || d]. *)
Definition or_value (o : option json) (d : json) : json :=
  match o with
  | Some v => if truthy v then v else d
  | None => d
  end.

Definition ok_body (content version : json) : json :=
  JObj [(lit "ok", JBool true); (lit "content", content);
        (lit "version", version)].

Definition error_body (message : jsstring) : json :=
  JObj [(lit "ok", JBool false); (lit "error", JStr message)].

(** [router.get('/popup')].  Reading [p.content] of [null] throws a
    TypeError, which the route's [catch] answers with status 500;
    [null_read_message] is the engine's message for it. *)
Definition get_popup (file : FileState) (null_read_message : jsstring)
  : Admin.Reply :=
  match readPopup file with
  | JNull => Admin.mkReply 500 (error_body null_read_message)
  | p =>
      Admin.mkReply 200
        (ok_body (or_value (get_field (lit "content") p) (JStr []))
                 (or_value (get_field (lit "version") p) (JStr (lit "1"))))
  end.

(** What [router.post('/popup')] answers, and the object it hands to
    [writePopup] ([None] when it does not get that far). *)
Record Update := mkUpdate { reply : Admin.Reply; written : option json }.

(** [router.post('/popup', adminAuth, ...)]; [content] and [version] are the
    fields of [req.body || {}], [now] is [Date.now()], [write_ok] tells
    whether [mkdirSync] and [writeFileSync] go through. *)
Definition post_popup (authorization : option jsstring)
    (content version : option json) (now : N) (write_ok : bool) : Update :=
  match Admin.adminAuth authorization with
  | Admin.Refused st b => mkUpdate (Admin.mkReply st b) None
  | Admin.Next =>
      match content with
      | Some (JStr c) =>
          let v := or_value version (JStr (Admin.decimal now)) in
          let obj := JObj [(lit "content", JStr c); (lit "version", v)] in
          if write_ok
          then mkUpdate (Admin.mkReply 200 (ok_body (JStr c) v)) (Some obj)
          else mkUpdate
                 (Admin.mkReply 500 (error_body (lit "Failed to save popup")))
                 (Some obj)
      | _ =>
          mkUpdate
            (Admin.mkReply 400 (error_body (lit "content (string) required")))
            None
      end
  end.

End Popup.

(** ** The admin namespace of the WebSocket server (part_000) *)

Module AdminSocket.

(** The two properties the listeners keep on the socket object. *)
Record Socket := mkSocket {
  adminAuthenticated : bool;     (* [undefined] reads as [false] *)
  adminId : option json
}.

(** A socket as [connection] hands it over. *)
Definition connected : Socket := mkSocket false None.

Inductive Action :=
| Emit (event : jsstring) (payload : json)   (* [socket.emit] *)
| Join (room : jsstring)
| Leave (room : jsstring)
| StatsRead                                  (* the queries of [getRealTimeStats] *)
| AnnouncementSave (title message : option json) (createdBy targetUsers : json)
| ContentUpdate (contentId action moderatedBy reason : option json).

(** What the listeners are given from outside. *)
Record World := mkWorld {
  rt : Runtime;
  stats : option json;    (* what [getRealTimeStats()] resolves to, [None] for [null] *)
  new_id : json;          (* [announcement._id] *)
  save_ok : bool;         (* [announcement.save()] resolves *)
  update_ok : bool        (* [Content.findByIdAndUpdate] resolves *)
}.

Inductive Incoming :=
| Authenticate (data : option json)
| JoinAdminRoom (data : option json)
| AdminCommand (data : option json)
| Disconnect.

(** The value a destructuring pattern reads from: [null] and [undefined]
    throw a TypeError ([None]). *)
Definition destructured (data : option json) : option json :=
  match data with
  | Some JNull | None => None
  | Some d => Some d
  end.

(** [`${v}`] for a value that may be [undefined]. *)
Definition text_of (r : Runtime) (o : option json) : jsstring :=
  match o with
  | Some v => ToString r v
  | None => lit "undefined"
  end.

(** An object literal as it is serialised: a property that is [undefined] is
    left out. *)
Definition with_field (k : jsstring) (o : option json)
    (ms : list (jsstring * json)) : list (jsstring * json) :=
  match o with
  | Some v => ms ++ [(k, v)]
  | None => ms
  end.

Definition not_authenticated : Action :=
  Emit (lit "error") (JObj [(lit "message", JStr (lit "Not authenticated"))]).

Definition invalid_credentials : Action :=
  Emit (lit "authenticated")
       (JObj [(lit "success", JBool false);
              (lit "message", JStr (lit "Invalid credentials"))]).

Definition execution_failed : Action :=
  Emit (lit "error")
       (JObj [(lit "message", JStr (lit "Command execution failed"))]).

Definition unknown_command : Action :=
  Emit (lit "error") (JObj [(lit "message", JStr (lit "Unknown command"))]).

Definition room_of (r : Runtime) (id : option json) : jsstring :=
  lit "admin_" ++ text_of r id.

(** [socket.on('authenticate')]. *)
Definition authenticate (s : Socket) (data : option json)
  : option (Socket * list Action) :=
  match destructured data with
  | None => None
  | Some d =>
      let adminToken := get_field (lit "adminToken") d in
      let adminId := get_field (lit "adminId") d in
      if truthy_opt adminToken && truthy_opt adminId
      then Some (mkSocket true adminId,
                 [Emit (lit "authenticated")
                       (JObj [(lit "success", JBool true)])])
      else Some (s, [invalid_credentials])
  end.

(** [sendRealTimeStats]: [getRealTimeStats] catches every failure of its
    queries and gives [null], for which nothing is emitted. *)
Definition sendRealTimeStats (w : World) : list Action :=
  StatsRead ::
  match stats w with
  | Some st => [Emit (lit "statsUpdate") st]
  | None => []
  end.

(** [socket.on('joinAdminRoom')]. *)
Definition joinAdminRoom (w : World) (s : Socket) (data : option json)
  : option (Socket * list Action) :=
  if negb (adminAuthenticated s) then Some (s, [not_authenticated])
  else
    let adminId :=
      if truthy_opt (adminId s) then Some (adminId s)
      else option_map (get_field (lit "adminId")) (destructured data) in
    match adminId with
    | None => None
    | Some id => Some (s, Join (room_of (rt w) id) :: sendRealTimeStats w)
    end.

(** Inside the [try] of [adminCommand]: a handler that throws or rejects is
    answered with [execution_failed]. *)
Definition handleBroadcastAnnouncement (w : World) (s : Socket)
    (payload : option json) : list Action :=
  match destructured payload with
  | None => [execution_failed]
  | Some p =>
      let targetUsers := get_field (lit "targetUsers") p in
      AnnouncementSave
        (get_field (lit "title") p) (get_field (lit "message") p)
        (Popup.or_value (adminId s) (JStr (lit "admin")))
        (Popup.or_value targetUsers (JStr (lit "all")))
      :: (if save_ok w
          then [Emit (lit "commandResult")
                     (JObj [(lit "command", JStr (lit "broadcastAnnouncement"));
                            (lit "success", JBool true);
                            (lit "announcementId", new_id w)])]
          else [execution_failed])
  end.

Definition handleKickUser (payload : option json) : list Action :=
  match destructured payload with
  | None => [execution_failed]
  | Some p =>
      [Emit (lit "commandResult")
            (JObj (with_field (lit "userId") (get_field (lit "userId") p)
                     [(lit "command", JStr (lit "kickUser"));
                      (lit "success", JBool true)]))]
  end.

Definition handleModerateContent (w : World) (s : Socket)
    (payload : option json) : list Action :=
  match destructured payload with
  | None => [execution_failed]
  | Some p =>
      let contentId := get_field (lit "contentId") p in
      ContentUpdate contentId (get_field (lit "action") p) (adminId s)
                    (get_field (lit "reason") p)
      :: (if update_ok w
          then [Emit (lit "commandResult")
                     (JObj (with_field (lit "contentId") contentId
                              [(lit "command", JStr (lit "moderateContent"));
                               (lit "success", JBool true)]))]
          else [execution_failed])
  end.

(** The [switch] of [adminCommand]. *)
Definition dispatch (w : World) (s : Socket) (command payload : option json)
  : list Action :=
  match command with
  | Some (JStr c) =>
      if str_eqb c (lit "broadcastAnnouncement")
      then handleBroadcastAnnouncement w s payload
      else if str_eqb c (lit "kickUser") then handleKickUser payload
      else if str_eqb c (lit "moderateContent")
      then handleModerateContent w s payload
      else if str_eqb c (lit "getRealTimeStats") then sendRealTimeStats w
      else [unknown_command]
  | _ => [unknown_command]
  end.

(** [socket.on('adminCommand')]; [data] is destructured before the [try]. *)
Definition adminCommand (w : World) (s : Socket) (data : option json)
  : option (Socket * list Action) :=
  if negb (adminAuthenticated s) then Some (s, [not_authenticated])
  else
    match destructured data with
    | None => None
    | Some d =>
        Some (s, dispatch w s (get_field (lit "command") d)
                          (get_field (lit "payload") d))
    end.

(** [socket.on('disconnect')]. *)
Definition disconnect (w : World) (s : Socket) : list Action :=
  if truthy_opt (adminId s) then [Leave (room_of (rt w) (adminId s))] else [].

(** One event on the socket; [None] when the listener throws. *)
Definition handle (w : World) (s : Socket) (e : Incoming)
  : option (Socket * list Action) :=
  match e with
  | Authenticate data => authenticate s data
  | JoinAdminRoom data => joinAdminRoom w s data
  | AdminCommand data => adminCommand w s data
  | Disconnect => Some (s, disconnect w s)
  end.

Record Run := mkRun { final : Socket; actions : list Action; thrown : bool }.

(** The events of one connection in turn, up to the first listener that
    throws. *)
Fixpoint run (w : World) (s : Socket) (es : list Incoming) : Run :=
  match es with
  | [] => mkRun s [] false
  | e :: rest =>
      match handle w s e with
      | None => mkRun s [] true
      | Some (s', acts) =>
          let r := run w s' rest in
          mkRun (final r) (acts ++ actions r) (thrown r)
      end
  end.

(** An [authenticate] event that carries a truthy token and a truthy id. *)
Definition authenticates (e : Incoming) : bool :=
  match e with
  | Authenticate (Some d) =>
      truthy_opt (get_field (lit "adminToken") d)
      && truthy_opt (get_field (lit "adminId") d)
  | _ => false
  end.

(** How many messages a list of actions sends to the client. *)
Definition emits (acts : list Action) : nat :=
  List.length
    (filter (fun a => match a with Emit _ _ => true | _ => false end) acts).

(** The two answers a socket that is not authenticated gets. *)
Definition refusal (a : Action) : Prop :=
  a = not_authenticated \/ a = invalid_credentials.

End AdminSocket.

(** ** More readings of a trace *)

(** The URL of every GET. *)
Definition fetched_urls (tr : list Event) : list jsstring :=
  flat_map (fun e => match e with Fetch url => [url] | _ => [] end) tr.


(** The document of every [ChatHistory.create]. *)
Definition history_creates (tr : list Event) : list json :=
  flat_map (fun e => match e with ChatHistoryCreate d => [d] | _ => [] end) tr.

(** Every read of the database. *)
Definition db_reads (tr : list Event) : list Event :=
  flat_map (fun e => match e with
                     | UserFindOne _ | ChatHistoryFind _ => [e]
                     | _ => []
                     end) tr.

(** ** Sample inputs *)

(** A runtime for inputs that hold no number: it prints none and equates
    none. *)
Definition no_numbers : Runtime :=
  mkRuntime (fun _ => []) (fun _ _ => false).

Definition fr : json := JStr (lit "fr").

Definition a_key : option jsstring := Some (lit "k-123").

Definition a_time : jsstring := lit "2024-05-01T10:00:00.000Z".

(** No key, no network, an empty history, no training file. *)
Definition offline : Env :=
  mkEnv no_numbers None false NoUser Rejected Rejected (Some []) ChatFails
        NoFile a_time Rejected Rejected.

(** A key, and a backend that answers [reply]; [history] is what is stored. *)
Definition answering (reply : jsstring) (history : list Chat) : Env :=
  mkEnv no_numbers a_key true NoUser Rejected Rejected (Some history)
        (ChatText reply) NoFile a_time Rejected Rejected.

Definition hello : Request := mkRequest (lit "u1") (lit "hello") (Some (lit "en")).

Definition how_are_you : Request :=
  mkRequest (lit "u1") (lit "how are you") (Some (lit "en")).

(** One stored exchange. *)
Definition stored : list Chat :=
  [mkChat (lit "my name is Ann") (lit "Nice to meet you, Ann.")].

(** The body of a generate response whose first generation is [text], for a
    [text] that needs no escape but that of its double quotes. *)
Definition generation_body (text : jsstring) : jsstring :=
  bq "{`generations`:[{`text`:`"
  ++ flat_map (fun c => if (c =? 34)%N then [92%N; 34%N] else [c]) text
  ++ bq "`}]}".

(** As [offline], with [raw] in the training file. *)
Definition with_file (raw : jsstring) : Env :=
  mkEnv no_numbers None false NoUser Rejected Rejected (Some []) ChatFails
        (FileText raw) a_time Rejected Rejected.

(** * Properties *)

(** ** Strings *)

Lemma str_eqb_eq (a b : jsstring) : str_eqb a b = true <-> a = b.
Proof.
  revert b; induction a as [|x a IH]; intros [|y b]; simpl;
    try (split; [discriminate | discriminate]); try tauto.
  rewrite andb_true_iff, N.eqb_eq, IH.
  split; [intros [-> ->]; reflexivity | intros [= -> ->]; auto].
Qed.

Lemma starts_with_spec (p s : jsstring) :
  starts_with p s = true <-> exists rest, s = p ++ rest.
Proof.
  revert s; induction p as [|a p IH]; intros s; simpl.
  - split; [intros _; exists s; reflexivity | reflexivity].
  - destruct s as [|b s].
    + split; [discriminate | intros [r H]; discriminate].
    + rewrite andb_true_iff, N.eqb_eq, IH.
      split.
      * intros [-> [r ->]]. exists r. reflexivity.
      * intros [r [= -> ->]]. split; [reflexivity | exists r; reflexivity].
Qed.

Lemma includes_spec (s k : jsstring) :
  includes s k = true <-> exists pre post, s = pre ++ k ++ post.
Proof.
  induction s as [|c s IH]; simpl.
  - rewrite orb_false_r, starts_with_spec. split.
    + intros [r H]. exists [], r. exact H.
    + intros [pre [post H]]. destruct pre as [|x pre]; [|discriminate].
      exists post. exact H.
  - rewrite orb_true_iff, starts_with_spec, IH. split.
    + intros [[r H] | [pre [post H]]].
      * exists [], r. exact H.
      * exists (c :: pre), post. simpl. rewrite H. reflexivity.
    + intros [pre [post H]]. destruct pre as [|x pre].
      * left. exists post. exact H.
      * right. injection H as _ H. exists pre, post. exact H.
Qed.

Lemma normalized_lower (text : jsstring) : normalized text = toLowerCase text.
Proof. destruct text; reflexivity. Qed.

Lemma KEYWORDS_NoDup : NoDup KEYWORDS.
Proof.
  vm_compute.
  repeat (constructor; [simpl; intuition discriminate |]).
  constructor.
Qed.

(** ** Values and traces *)

Lemma value_bind (A B : Type) (m : M A) (k : A -> M B) :
  value (bind m k) = value (k (value m)).
Proof.
  unfold value, bind. destruct m as [a t]. simpl.
  destruct (k a). reflexivity.
Qed.

Lemma trace_bind (A B : Type) (m : M A) (k : A -> M B) :
  trace (bind m k) = trace m ++ trace (k (value m)).
Proof.
  unfold value, trace, bind. destruct m as [a t]. simpl.
  destruct (k a). reflexivity.
Qed.

(** The fields of a completed REST turn, block by block. *)
Lemma route_turn_value (env : Env) (req : Request) :
  value (Route.turn env req) =
  let sourceLang := value (Route.resolve_language env req) in
  let translatedText := value (Route.to_english env req sourceLang) in
  let reply := value (Route.bot_logic env translatedText) in
  match previousChats env with
  | None => None
  | Some chats =>
      Some (Route.mkTurn
              (value (Route.find_user_role env req))
              sourceLang translatedText (preferCohere translatedText)
              (Route.build_prompt chats translatedText)
              (fst reply) (snd reply)
              (value (Route.callCohereAnalyzeMood (COHERE_API_KEY env)
                        (message req) (mood_response env)))
              (value (Route.translate_back env sourceLang (fst reply))))
  end.
Proof.
  unfold Route.turn. rewrite !value_bind.
  destruct (previousChats env); cbv beta iota zeta; [| reflexivity].
  rewrite !value_bind. reflexivity.
Qed.

(** The calls of a REST turn, block by block. *)
Lemma route_turn_trace (env : Env) (req : Request) :
  trace (Route.turn env req) =
  let sourceLang := value (Route.resolve_language env req) in
  let translatedText := value (Route.to_english env req sourceLang) in
  let reply := value (Route.bot_logic env translatedText) in
  trace (Route.find_user_role env req)
  ++ trace (Route.resolve_language env req)
  ++ trace (Route.to_english env req sourceLang)
  ++ [ChatHistoryFind (userId req)]
  ++ match previousChats env with
     | None => []
     | Some _ =>
         trace (Route.bot_logic env translatedText)
         ++ trace (Route.record_turn env req sourceLang
                     (preferCohere translatedText) (fst reply) (snd reply))
         ++ trace (Route.callCohereAnalyzeMood (COHERE_API_KEY env)
                     (message req) (mood_response env))
         ++ trace (Route.translate_back env sourceLang (fst reply))
     end.
Proof.
  unfold Route.turn. rewrite !trace_bind, ?value_bind.
  destruct (previousChats env); cbv beta iota zeta.
  - rewrite !trace_bind, ?value_bind. simpl. rewrite app_nil_r. reflexivity.
  - reflexivity.
Qed.

Lemma socket_turn_value (env : Env) (req : Request) :
  value (Socket.turn env req) =
  let sourceLang := value (Socket.resolve_language env req) in
  let translatedText := value (Socket.to_english env req sourceLang) in
  let reply := value (Socket.bot_logic env translatedText) in
  Socket.mkTurn sourceLang translatedText (fst reply) (snd reply)
    (value (Socket.callCohereAnalyzeMood (COHERE_API_KEY env)
              (message req) (mood_response env)))
    (value (Socket.translate_back env sourceLang (fst reply))).
Proof. unfold Socket.turn. rewrite !value_bind. reflexivity. Qed.

Lemma socket_turn_trace (env : Env) (req : Request) :
  trace (Socket.turn env req) =
  let sourceLang := value (Socket.resolve_language env req) in
  let translatedText := value (Socket.to_english env req sourceLang) in
  let reply := value (Socket.bot_logic env translatedText) in
  trace (Socket.resolve_language env req)
  ++ trace (Socket.to_english env req sourceLang)
  ++ trace (Socket.bot_logic env translatedText)
  ++ trace (Socket.record_turn req sourceLang (fst reply) (snd reply))
  ++ trace (Socket.callCohereAnalyzeMood (COHERE_API_KEY env)
              (message req) (mood_response env))
  ++ trace (Socket.translate_back env sourceLang (fst reply)).
Proof.
  unfold Socket.turn. rewrite !trace_bind, ?value_bind. simpl.
  rewrite app_nil_r. reflexivity.
Qed.

(** ** What each block calls *)

Lemma detectLanguage_calls (text : jsstring) (r : FetchOutcome) :
  at_most_a_fetch (trace (detectLanguage text r)).
Proof.
  unfold detectLanguage. destruct (encodeURIComponent text).
  - right. eexists. reflexivity.
  - left. reflexivity.
Qed.

Lemma fetch_translation_calls (rt : Runtime) (text : jsstring)
    (source target : json) (r : FetchOutcome) :
  at_most_a_fetch (trace (fetch_translation rt text source target r)).
Proof.
  unfold fetch_translation. destruct (encodeURIComponent text).
  - right. eexists. reflexivity.
  - left. reflexivity.
Qed.

Lemma route_translate_calls (rt : Runtime) (text : jsstring)
    (source target : json) (r : FetchOutcome) :
  at_most_a_fetch (trace (Route.translate rt text source target r)).
Proof.
  unfold Route.translate. destruct (strict_equal rt source target).
  - left. reflexivity.
  - apply fetch_translation_calls.
Qed.

Lemma socket_translate_calls (rt : Runtime) (text : jsstring)
    (source target : json) (r : FetchOutcome) :
  at_most_a_fetch (trace (Socket.translate rt text source target r)).
Proof.
  unfold Socket.translate. destruct (is_empty text); [left; reflexivity |].
  destruct (strict_equal rt source target).
  - left. reflexivity.
  - apply fetch_translation_calls.
Qed.

Lemma route_language_calls (env : Env) (req : Request) :
  at_most_a_fetch (trace (Route.resolve_language env req)).
Proof.
  unfold Route.resolve_language.
  destruct (str_eqb _ _); [apply detectLanguage_calls | left; reflexivity].
Qed.

Lemma route_to_english_calls (env : Env) (req : Request) (l : json) :
  at_most_a_fetch (trace (Route.to_english env req l)).
Proof.
  unfold Route.to_english.
  destruct (negb _); [apply route_translate_calls | left; reflexivity].
Qed.

Lemma route_translate_back_calls (env : Env) (l : json) (reply : jsstring) :
  at_most_a_fetch (trace (Route.translate_back env l reply)).
Proof.
  unfold Route.translate_back.
  destruct (negb _); [apply route_translate_calls | left; reflexivity].
Qed.

Lemma socket_language_calls (env : Env) (req : Request) :
  at_most_a_fetch (trace (Socket.resolve_language env req)).
Proof.
  unfold Socket.resolve_language.
  destruct (str_eqb _ _); [apply detectLanguage_calls | left; reflexivity].
Qed.

Lemma socket_to_english_calls (env : Env) (req : Request) (l : json) :
  at_most_a_fetch (trace (Socket.to_english env req l)).
Proof.
  unfold Socket.to_english.
  destruct (negb _); [apply socket_translate_calls | left; reflexivity].
Qed.

Lemma socket_translate_back_calls (env : Env) (l : json) (reply : jsstring) :
  at_most_a_fetch (trace (Socket.translate_back env l reply)).
Proof.
  unfold Socket.translate_back.
  destruct (negb _); [apply socket_translate_calls | left; reflexivity].
Qed.

Lemma analyze_calls (p : jsstring -> jsstring) (key : option jsstring)
    (userText : jsstring) (r : FetchOutcome) :
  trace (analyze_with p key userText r)
  = if configured key then [FetchGenerate (p userText)] else [].
Proof. unfold analyze_with. destruct (configured key); reflexivity. Qed.

(** The generation block sends at most one request, and what it sends is the
    fixed preamble around the canonicalized message. *)
Lemma route_bot_logic_calls (env : Env) (text : jsstring) :
  trace (Route.bot_logic env text)
  = if configured (COHERE_API_KEY env) && cohere_client env
    then [CohereChat (Route.chat_message text)] else [].
Proof.
  unfold Route.bot_logic, Route.callCohereGenerate.
  destruct (configured (COHERE_API_KEY env)); [| reflexivity].
  destruct (cohere_client env); reflexivity.
Qed.

Lemma socket_bot_logic_calls (env : Env) (text : jsstring) :
  trace (Socket.bot_logic env text)
  = if configured (COHERE_API_KEY env) && cohere_client env
    then [CohereChat (Socket.chat_message text)] else [].
Proof.
  unfold Socket.bot_logic, Socket.callCohereGenerate.
  destruct (configured (COHERE_API_KEY env)); [| reflexivity].
  destruct (cohere_client env); reflexivity.
Qed.

Lemma saveTrainingEntry_calls (entry : json) (file : FileState) :
  trace (Route.saveTrainingEntry entry file) = []
  \/ exists arr, trace (Route.saveTrainingEntry entry file)
                 = [WriteTrainingFile arr].
Proof.
  unfold Route.saveTrainingEntry. destruct file as [| |raw].
  - right. eexists. reflexivity.
  - left. reflexivity.
  - destruct (is_empty raw); [right; eexists; reflexivity |].
    destruct (JSON_parse raw) as [[]|];
      try (left; reflexivity); right; eexists; reflexivity.
Qed.

Lemma route_record_turn_calls (env : Env) (req : Request) (l : json)
    (prefer : bool) (reply source : jsstring) :
  trace (Route.record_turn env req l prefer reply source)
  = ChatHistoryCreate (Route.history_doc req reply l)
    :: trace (Route.saveTrainingEntry
                (Route.trainingData env req reply l source)
                (training_file env))
    ++ (if str_eqb source src_cohere || prefer
        then [TrainingEntryCreate (Route.training_doc req reply l source)]
        else []).
Proof.
  unfold Route.record_turn. rewrite !trace_bind. simpl.
  destruct (str_eqb source src_cohere || prefer); reflexivity.
Qed.

Lemma socket_record_turn_calls (req : Request) (l : json)
    (reply source : jsstring) :
  trace (Socket.record_turn req l reply source)
  = ChatHistoryCreate (Socket.history_doc req reply l)
    :: (if str_eqb source src_cohere
        then [TrainingEntryCreate (Socket.training_doc req reply l source)]
        else []).
Proof.
  unfold Socket.record_turn. rewrite !trace_bind. simpl.
  destruct (str_eqb source src_cohere); reflexivity.
Qed.

Lemma flat_map_fetch (A : Type) (f : Event -> list A) (tr : list Event) :
  (forall url, f (Fetch url) = []) ->
  at_most_a_fetch tr -> flat_map f tr = [].
Proof.
  intros Hf [-> | [url ->]]; simpl; [reflexivity |].
  rewrite Hf. reflexivity.
Qed.

Lemma saveTrainingEntry_skipped (A : Type) (f : Event -> list A)
    (entry : json) (file : FileState) :
  (forall arr, f (WriteTrainingFile arr) = []) ->
  flat_map f (trace (Route.saveTrainingEntry entry file)) = [].
Proof.
  intros Hf.
  destruct (saveTrainingEntry_calls entry file) as [-> | [arr ->]];
    simpl; [reflexivity |].
  rewrite Hf. reflexivity.
Qed.

(** What an observer that skips the GETs reads off a REST turn. *)
Lemma route_observed (A : Type) (f : Event -> list A) (env : Env)
    (req : Request) :
  (forall url, f (Fetch url) = []) ->
  flat_map f (trace (Route.turn env req))
  = f (UserFindOne (userId req))
    ++ f (ChatHistoryFind (userId req))
    ++ match previousChats env with
       | None => []
       | Some _ =>
           let sourceLang := value (Route.resolve_language env req) in
           let translatedText := value (Route.to_english env req sourceLang) in
           let reply := value (Route.bot_logic env translatedText) in
           flat_map f (trace (Route.bot_logic env translatedText))
           ++ flat_map f (trace (Route.record_turn env req sourceLang
                                   (preferCohere translatedText)
                                   (fst reply) (snd reply)))
           ++ flat_map f (trace (Route.callCohereAnalyzeMood
                                   (COHERE_API_KEY env) (message req)
                                   (mood_response env)))
       end.
Proof.
  intros Hf. rewrite route_turn_trace. cbv zeta.
  rewrite !flat_map_app.
  rewrite (flat_map_fetch _ Hf (route_language_calls env req)).
  rewrite (flat_map_fetch _ Hf (route_to_english_calls env req _)).
  unfold Route.find_user_role. rewrite trace_bind. simpl.
  rewrite !app_nil_r.
  destruct (previousChats env); [| reflexivity].
  rewrite !flat_map_app.
  rewrite (flat_map_fetch _ Hf (route_translate_back_calls env _ _)).
  rewrite app_nil_r. reflexivity.
Qed.

(** What an observer that skips the GETs reads off a socket turn. *)
Lemma socket_observed (A : Type) (f : Event -> list A) (env : Env)
    (req : Request) :
  (forall url, f (Fetch url) = []) ->
  flat_map f (trace (Socket.turn env req))
  = let sourceLang := value (Socket.resolve_language env req) in
    let translatedText := value (Socket.to_english env req sourceLang) in
    let reply := value (Socket.bot_logic env translatedText) in
    flat_map f (trace (Socket.bot_logic env translatedText))
    ++ flat_map f (trace (Socket.record_turn req sourceLang
                            (fst reply) (snd reply)))
    ++ flat_map f (trace (Socket.callCohereAnalyzeMood
                            (COHERE_API_KEY env) (message req)
                            (mood_response env))).
Proof.
  intros Hf. rewrite socket_turn_trace. cbv zeta.
  rewrite !flat_map_app.
  rewrite (flat_map_fetch _ Hf (socket_language_calls env req)).
  rewrite (flat_map_fetch _ Hf (socket_to_english_calls env req _)).
  rewrite (flat_map_fetch _ Hf (socket_translate_back_calls env _ _)).
  rewrite app_nil_r. reflexivity.
Qed.

(** ** Keywords *)

(** C4: in every completed REST turn the prefer flag equals
    (count >= 2) || (count == 0), where count is the number of keywords
    matched in the canonicalized text; it is false exactly when count is 1. *)
Theorem prefer_flag_formula (env : Env) (req : Request) (t : Route.Turn) :
  value (Route.turn env req) = Some t ->
  Route.t_preferCohere t
  = ((2 <=? List.length (matchedKeywords (Route.t_translatedText t)))
     || (List.length (matchedKeywords (Route.t_translatedText t)) =? 0))
  /\ (Route.t_preferCohere t = false
      <-> List.length (matchedKeywords (Route.t_translatedText t)) = 1).
Proof.
  rewrite route_turn_value. cbv zeta.
  destruct (previousChats env); [| discriminate].
  intros [= <-]. simpl. unfold preferCohere.
  split; [reflexivity |].
  destruct (List.length _) as [|[|n]]; simpl; split; intros;
    try discriminate; try reflexivity; lia.
Qed.

Lemma prefer_flag_formula_witness :
  value (Route.turn (answering (lit "Rest well.") [])
           (mkRequest (lit "u1") (lit "I am stressed") (Some (lit "en"))))
  = Some (Route.mkTurn (lit "user") en (lit "I am stressed") false
            (lit "User: I am stressed" ++ nl ++ lit "Bot:")
            (lit "Rest well.") src_cohere None (lit "Rest well."))
  /\ List.length (matchedKeywords (lit "I am stressed")) = 1.
Proof.
  split; [reflexivity |].
  exact (proj1 (proj2 (@prefer_flag_formula
                         (answering (lit "Rest well.") [])
                         (mkRequest (lit "u1") (lit "I am stressed")
                            (Some (lit "en")))
                         (Route.mkTurn (lit "user") en (lit "I am stressed")
                            false
                            (lit "User: I am stressed" ++ nl ++ lit "Bot:")
                            (lit "Rest well.") src_cohere None
                            (lit "Rest well."))
                         eq_refl))
               eq_refl).
Defined.

(** C10: the count feeding the flag is the number of distinct keywords of the
    fixed list of 17 that occur in the lower-cased text: a keyword is matched
    exactly when it is a substring of it, no keyword is matched twice, three
    occurrences of stress count once (and leave the flag false), and workout
    matches work. *)
Theorem matched_keywords_distinct_substrings :
  List.length KEYWORDS = 17
  /\ NoDup KEYWORDS
  /\ (forall text k,
        In k (matchedKeywords text)
        <-> In k KEYWORDS
            /\ exists pre post, toLowerCase text = pre ++ k ++ post)
  /\ (forall text, NoDup (matchedKeywords text))
  /\ matchedKeywords (lit "stress stress stress") = [lit "stress"]
  /\ preferCohere (lit "stress stress stress") = false
  /\ matchedKeywords (lit "workout") = [lit "work"]
  /\ matchedKeywords (lit "My WORKOUT was Stressful") = [lit "stress"; lit "work"].
Proof.
  split; [reflexivity |].
  split; [exact KEYWORDS_NoDup |].
  split.
  { intros text k. unfold matchedKeywords.
    rewrite filter_In, includes_spec, normalized_lower. reflexivity. }
  split.
  { intros text. apply NoDup_filter, KEYWORDS_NoDup. }
  repeat split; vm_compute; reflexivity.
Qed.

(** ** The generation block *)

Lemma str_or_nonempty (a b : jsstring) :
  is_empty b = false -> is_empty (str_or a b) = false.
Proof. unfold str_or. destruct a; simpl; auto. Qed.

Lemma translated_of_nonempty (rt : Runtime) (data : json) (text : jsstring) :
  is_empty text = false -> is_empty (translated_of rt data text) = false.
Proof.
  intros H. unfold translated_of.
  destruct (negb (truthy data)); [exact H |].
  destruct (get_index 0 data) as [[]|]; try exact H.
  apply str_or_nonempty, H.
Qed.

Lemma fetch_translation_nonempty (rt : Runtime) (text : jsstring)
    (source target : json) (r : FetchOutcome) :
  is_empty text = false ->
  is_empty (value (fetch_translation rt text source target r)) = false.
Proof.
  intros H. unfold fetch_translation.
  destruct (encodeURIComponent text); [| exact H].
  unfold value; simpl.
  destruct r as [|[] body]; try exact H.
  destruct (JSON_parse body); [apply translated_of_nonempty, H | exact H].
Qed.

Lemma route_translate_back_nonempty (env : Env) (l : json) (reply : jsstring) :
  is_empty reply = false ->
  is_empty (value (Route.translate_back env l reply)) = false.
Proof.
  intros H. unfold Route.translate_back, Route.translate.
  destruct (negb (is_en l)); [| exact H].
  destruct (strict_equal _ _ _); [exact H |].
  apply fetch_translation_nonempty, H.
Qed.

Lemma socket_translate_back_nonempty (env : Env) (l : json) (reply : jsstring) :
  is_empty reply = false ->
  is_empty (value (Socket.translate_back env l reply)) = false.
Proof.
  intros H. unfold Socket.translate_back, Socket.translate.
  destruct (negb (is_en l)); [| exact H].
  rewrite H.
  destruct (strict_equal _ _ _); [exact H |].
  apply fetch_translation_nonempty, H.
Qed.

(** Every way the generation block can end, on the route. *)
Lemma route_bot_logic_cases (env : Env) (text : jsstring) :
  value (Route.bot_logic env text)
  = if negb (configured (COHERE_API_KEY env)) then (UNAVAILABLE, src_error)
    else if negb (cohere_client env) then (SORRY, src_error)
    else match chat_response env with
         | ChatFails => (SORRY, src_error)
         | ChatText reply =>
             if is_empty (trim reply) then (Route.DEFAULT, src_default)
             else (trim reply, src_cohere)
         end.
Proof.
  unfold Route.bot_logic, Route.callCohereGenerate.
  destruct (configured (COHERE_API_KEY env)); [| reflexivity].
  destruct (cohere_client env); [| reflexivity].
  destruct (chat_response env) as [|reply]; [reflexivity |].
  unfold value; simpl. destruct (trim reply); reflexivity.
Qed.

(** Every way the generation block can end, on the socket. *)
Lemma socket_bot_logic_cases (env : Env) (text : jsstring) :
  value (Socket.bot_logic env text)
  = if negb (configured (COHERE_API_KEY env)) then (UNAVAILABLE, src_error)
    else if negb (cohere_client env) then (SORRY, src_error)
    else match chat_response env with
         | ChatFails => (SORRY, src_error)
         | ChatText reply =>
             if is_empty (trim reply) then (Socket.DEFAULT, src_default)
             else (trim reply, src_cohere)
         end.
Proof.
  unfold Socket.bot_logic, Socket.callCohereGenerate.
  destruct (configured (COHERE_API_KEY env)); [| reflexivity].
  destruct (cohere_client env); [| reflexivity].
  destruct (chat_response env) as [|reply]; [reflexivity |].
  unfold value; simpl. destruct (trim reply); reflexivity.
Qed.

Lemma route_reply_nonempty (env : Env) (text : jsstring) :
  is_empty (fst (value (Route.bot_logic env text))) = false.
Proof.
  rewrite route_bot_logic_cases.
  destruct (negb (configured _)); [reflexivity |].
  destruct (negb (cohere_client env)); [reflexivity |].
  destruct (chat_response env) as [|reply]; [reflexivity |].
  destruct (is_empty (trim reply)) eqn:E; [reflexivity | exact E].
Qed.

Lemma socket_reply_nonempty (env : Env) (text : jsstring) :
  is_empty (fst (value (Socket.bot_logic env text))) = false.
Proof.
  rewrite socket_bot_logic_cases.
  destruct (negb (configured _)); [reflexivity |].
  destruct (negb (cohere_client env)); [reflexivity |].
  destruct (chat_response env) as [|reply]; [reflexivity |].
  destruct (is_empty (trim reply)) eqn:E; [reflexivity | exact E].
Qed.

(** C3: whatever the generative backend does, the reply of the generation
    block is not empty, on the route and on the socket, and so is the text
    sent back; without a key it is the service-unavailable message tagged
    error; when the call throws it is the apology tagged error; when the call
    answers a text that trims to nothing it is the I'm-here-to-listen default
    tagged default. *)
Theorem reply_never_empty (env : Env) (text : jsstring) :
  (is_empty (fst (value (Route.bot_logic env text))) = false
   /\ is_empty (fst (value (Socket.bot_logic env text))) = false)
  /\ (forall req t, value (Route.turn env req) = Some t ->
        is_empty (Route.t_botReply t) = false
        /\ is_empty (Route.t_finalReply t) = false)
  /\ (forall req,
        is_empty (Socket.t_botReply (value (Socket.turn env req))) = false
        /\ is_empty (Socket.t_finalReply (value (Socket.turn env req))) = false)
  /\ (configured (COHERE_API_KEY env) = false ->
        value (Route.bot_logic env text) = (UNAVAILABLE, src_error)
        /\ value (Socket.bot_logic env text) = (UNAVAILABLE, src_error))
  /\ (configured (COHERE_API_KEY env) = true ->
      cohere_client env = false \/ chat_response env = ChatFails ->
        value (Route.bot_logic env text) = (SORRY, src_error)
        /\ value (Socket.bot_logic env text) = (SORRY, src_error))
  /\ (forall answer,
        configured (COHERE_API_KEY env) = true ->
        cohere_client env = true ->
        chat_response env = ChatText answer ->
        trim answer = [] ->
        value (Route.bot_logic env text) = (Route.DEFAULT, src_default)
        /\ value (Socket.bot_logic env text) = (Socket.DEFAULT, src_default))
  /\ (starts_with (lit "Service temporarily unavailable") UNAVAILABLE = true
      /\ starts_with (lit "I'm sorry") SORRY = true
      /\ starts_with (lit "I'm here to listen") Route.DEFAULT = true
      /\ starts_with (lit "I'm here to listen") Socket.DEFAULT = true).
Proof.
  split; [split; [apply route_reply_nonempty | apply socket_reply_nonempty] |].
  split.
  { intros req t. rewrite route_turn_value. cbv zeta.
    destruct (previousChats env); [| discriminate].
    intros [= <-]. simpl. split; [apply route_reply_nonempty |].
    apply route_translate_back_nonempty, route_reply_nonempty. }
  split.
  { intros req. rewrite socket_turn_value. cbv zeta. simpl.
    split; [apply socket_reply_nonempty |].
    apply socket_translate_back_nonempty, socket_reply_nonempty. }
  rewrite route_bot_logic_cases, socket_bot_logic_cases.
  split; [intros ->; split; reflexivity |].
  split.
  { intros -> [-> | ->]; simpl; [split; reflexivity |].
    destruct (cohere_client env); split; reflexivity. }
  split.
  { intros answer -> -> -> ->. split; reflexivity. }
  repeat split; vm_compute; reflexivity.
Qed.

Lemma reply_never_empty_witness :
  (value (Route.bot_logic offline (lit "hello")) = (UNAVAILABLE, src_error)
   /\ value (Socket.bot_logic offline (lit "hello")) = (UNAVAILABLE, src_error))
  /\ (value (Route.bot_logic
               (mkEnv no_numbers a_key true NoUser Rejected Rejected (Some [])
                      ChatFails NoFile a_time Rejected Rejected)
               (lit "hello")) = (SORRY, src_error)
      /\ value (Socket.bot_logic
                  (mkEnv no_numbers a_key true NoUser Rejected Rejected (Some [])
                         ChatFails NoFile a_time Rejected Rejected)
                  (lit "hello")) = (SORRY, src_error))
  /\ (value (Route.bot_logic (answering (lit "  ") []) (lit "hello"))
      = (Route.DEFAULT, src_default)
      /\ value (Socket.bot_logic (answering (lit "  ") []) (lit "hello"))
         = (Socket.DEFAULT, src_default))
  /\ (is_empty (Route.t_botReply
                  (Route.mkTurn (lit "user") en (lit "hello") true
                     (lit "User: hello" ++ nl ++ lit "Bot:")
                     UNAVAILABLE src_error None UNAVAILABLE)) = false
      /\ is_empty (Route.t_finalReply
                     (Route.mkTurn (lit "user") en (lit "hello") true
                        (lit "User: hello" ++ nl ++ lit "Bot:")
                        UNAVAILABLE src_error None UNAVAILABLE)) = false).
Proof.
  split.
  { exact (proj1 (proj2 (proj2 (proj2 (reply_never_empty offline (lit "hello")))))
                 eq_refl). }
  split.
  { exact (proj1 (proj2 (proj2 (proj2 (proj2
             (reply_never_empty
                (mkEnv no_numbers a_key true NoUser Rejected Rejected (Some [])
                       ChatFails NoFile a_time Rejected Rejected)
                (lit "hello"))))))
             eq_refl (or_intror eq_refl)). }
  split.
  { exact (proj1 (proj2 (proj2 (proj2 (proj2 (proj2
             (reply_never_empty (answering (lit "  ") []) (lit "hello")))))))
             (lit "  ") eq_refl eq_refl eq_refl eq_refl). }
  exact (proj1 (proj2 (reply_never_empty offline (lit "hello")))
               hello _ eq_refl).
Defined.

(** ** The transcript and the backend request *)

(** C1: with one exchange stored and with none, the REST handler sends the
    generative backend the same request, the fixed preamble around the
    current message; the prompt it built from the stored exchange is in no
    request. *)
Theorem route_request_ignores_transcript :
  chat_requests (trace (Route.turn (answering (lit "Fine.") stored) how_are_you))
  = [Route.chat_message (lit "how are you")]
  /\ chat_requests (trace (Route.turn (answering (lit "Fine.") []) how_are_you))
     = [Route.chat_message (lit "how are you")]
  /\ option_map Route.t_prompt
       (value (Route.turn (answering (lit "Fine.") stored) how_are_you))
     = Some (lit "User: my name is Ann" ++ nl
             ++ lit "Bot: Nice to meet you, Ann." ++ nl
             ++ lit "User: how are you" ++ nl ++ lit "Bot:")
  /\ includes (Route.chat_message (lit "how are you")) (lit "my name is Ann")
     = false.
Proof. repeat split; vm_compute; reflexivity. Qed.

(** ** Training candidates *)

(** C2: for the message hello, which matches no keyword and so is flagged,
    and no key, so that the reply is tagged error, the socket handler creates
    no training document where the REST handler creates one. *)
Theorem socket_drops_flagged_candidate :
  preferCohere (lit "hello") = true
  /\ Socket.t_source (value (Socket.turn offline hello)) = src_error
  /\ training_creates (trace (Socket.turn offline hello)) = []
  /\ training_creates (trace (Route.turn offline hello))
     = [Route.training_doc hello UNAVAILABLE en src_error].
Proof. repeat split; vm_compute; reflexivity. Qed.

(** ** The response payload *)

(** C8: with no key the extraction yields null; the socket handler still
    emits a payload with a moodAnalysis key, holding null, where the REST
    handler leaves the key out. *)
Theorem socket_payload_holds_null_analysis :
  Socket.t_moodAnalysis (value (Socket.turn offline hello)) = None
  /\ value (Socket.chatbotMessage offline (Some hello))
     = Socket.mkEmitted (lit "chatbotResponse")
         (JObj [(lit "sender", JStr (lit "bot"));
                (lit "text", JStr UNAVAILABLE);
                (lit "moodAnalysis", JNull)])
  /\ get_field (lit "moodAnalysis")
       (Socket.payload (value (Socket.chatbotMessage offline (Some hello))))
     = Some JNull
  /\ get_field (lit "moodAnalysis")
       (Route.body (value (Route.post offline hello)))
     = None.
Proof. repeat split; vm_compute; reflexivity. Qed.

(** ** Translation *)


(** ** Mood extraction *)

Lemma trimStart_app_nonspace (x y : jsstring) (c : N) :
  isWhiteSpace c = false -> trimStart (x ++ c :: y) = trimStart x ++ c :: y.
Proof.
  intros Hc. induction x as [|a x IH]; simpl.
  - rewrite Hc. reflexivity.
  - destruct (isWhiteSpace a); [exact IH | reflexivity].
Qed.

Lemma trimStart_incl (x : jsstring) (c : N) : In c (trimStart x) -> In c x.
Proof.
  induction x as [|a x IH]; simpl; [tauto |].
  destruct (isWhiteSpace a); [auto | simpl; tauto].
Qed.

Lemma trimEnd_app_nonspace (x y : jsstring) (c : N) :
  isWhiteSpace c = false -> trimEnd (x ++ c :: y) = x ++ c :: trimEnd y.
Proof.
  intros Hc. unfold trimEnd.
  rewrite rev_app_distr. simpl. rewrite <- app_assoc. simpl.
  rewrite trimStart_app_nonspace by exact Hc.
  rewrite rev_app_distr. simpl. rewrite rev_involutive, <- app_assoc.
  reflexivity.
Qed.

Lemma indexOf_first (c : N) (x y : jsstring) :
  ~ In c x -> indexOf c (x ++ c :: y) = Some (List.length x).
Proof.
  induction x as [|a x IH]; simpl; intros H.
  - rewrite N.eqb_refl. reflexivity.
  - destruct (N.eqb_spec a c) as [-> | _]; [tauto |].
    rewrite IH by tauto. reflexivity.
Qed.

(** The text handed to the parser starts at the first brace of the returned
    text and runs to its last unit that is not white space. *)
Lemma json_candidate_from_first_brace (prose rest : jsstring) :
  ~ In 123%N prose ->
  json_candidate (prose ++ 123%N :: rest) = 123%N :: trimEnd rest.
Proof.
  intros H. unfold json_candidate, trim.
  rewrite trimStart_app_nonspace by reflexivity.
  rewrite trimEnd_app_nonspace by reflexivity.
  rewrite indexOf_first by (intros Hin; apply H, trimStart_incl, Hin).
  unfold slice. rewrite skipn_app, skipn_all, Nat.sub_diag. reflexivity.
Qed.

Lemma basic_validation_needs_a_field (parsed : json) :
  get_field (lit "mood") parsed = None ->
  get_field (lit "habits") parsed = None ->
  basic_validation parsed = false.
Proof.
  intros Hm Hh. unfold basic_validation. rewrite Hm, Hh. simpl.
  apply andb_false_r.
Qed.

(** C7: the extractor returns null, without a call, when no key is
    configured; it returns null when the response is not ok, when the text
    from its first brace on does not parse, and when what it parses to has
    neither a mood nor a habits field; and the text it parses is the returned
    text from its first brace on. *)
Theorem analysis_null_cases (key : option jsstring) (userText : jsstring)
    (r : FetchOutcome) :
  (configured key = false ->
     Route.callCohereAnalyzeMood key userText r = (None, []))
  /\ (forall body, r = Response false body ->
        value (Route.callCohereAnalyzeMood key userText r) = None)
  /\ (forall body data text,
        r = Response true body ->
        JSON_parse body = Some data ->
        generation_text data = JStr text ->
        JSON_parse (json_candidate text) = None ->
        value (Route.callCohereAnalyzeMood key userText r) = None)
  /\ (forall body data text parsed,
        r = Response true body ->
        JSON_parse body = Some data ->
        generation_text data = JStr text ->
        JSON_parse (json_candidate text) = Some parsed ->
        get_field (lit "mood") parsed = None ->
        get_field (lit "habits") parsed = None ->
        value (Route.callCohereAnalyzeMood key userText r) = None)
  /\ (forall prose rest,
        ~ In 123%N prose ->
        json_candidate (prose ++ 123%N :: rest) = 123%N :: trimEnd rest).
Proof.
  unfold Route.callCohereAnalyzeMood, analyze_with.
  split; [intros ->; reflexivity |].
  split.
  { intros body ->. destruct (configured key); reflexivity. }
  split.
  { intros body data text -> Hbody Htext Hparse.
    destruct (configured key); [| reflexivity].
    unfold value; simpl. rewrite Hbody, Htext, Hparse. reflexivity. }
  split.
  { intros body data text parsed -> Hbody Htext Hparse Hm Hh.
    destruct (configured key); [| reflexivity].
    unfold value; simpl. rewrite Hbody, Htext, Hparse.
    rewrite basic_validation_needs_a_field by assumption. reflexivity. }
  exact json_candidate_from_first_brace.
Qed.

Lemma analysis_null_cases_witness :
  Route.callCohereAnalyzeMood None (lit "hi")
    (Response true (generation_body (bq "{`mood`:`sad`}"))) = (None, [])
  /\ value (Route.callCohereAnalyzeMood a_key (lit "hi")
              (Response false (lit "Too Many Requests"))) = None
  /\ value (Route.callCohereAnalyzeMood a_key (lit "hi")
              (Response true (generation_body (bq "I think {`mood`:")))) = None
  /\ value (Route.callCohereAnalyzeMood a_key (lit "hi")
              (Response true
                 (generation_body (bq "Here you go: {`note`:`hi`}")))) = None
  /\ json_candidate (lit "Here you go: " ++ 123%N :: bq "`mood`:`sad`} ")
     = 123%N :: trimEnd (bq "`mood`:`sad`} ").
Proof.
  split.
  { exact (proj1 (analysis_null_cases None (lit "hi")
                    (Response true (generation_body (bq "{`mood`:`sad`}"))))
                 eq_refl). }
  split.
  { exact (proj1 (proj2 (analysis_null_cases a_key (lit "hi")
                           (Response false (lit "Too Many Requests"))))
                 _ eq_refl). }
  split.
  { refine (proj1 (proj2 (proj2 (analysis_null_cases a_key (lit "hi")
              (Response true (generation_body (bq "I think {`mood`:"))))))
              _ (JObj [(lit "generations",
                        JArr [JObj [(lit "text",
                                     JStr (bq "I think {`mood`:"))]])])
              (bq "I think {`mood`:") eq_refl _ _ _);
      vm_compute; reflexivity. }
  split.
  { refine (proj1 (proj2 (proj2 (proj2 (analysis_null_cases a_key (lit "hi")
              (Response true
                 (generation_body (bq "Here you go: {`note`:`hi`}")))))))
              _ (JObj [(lit "generations",
                        JArr [JObj [(lit "text",
                                     JStr (bq "Here you go: {`note`:`hi`}"))]])])
              (bq "Here you go: {`note`:`hi`}")
              (JObj [(lit "note", JStr (lit "hi"))]) eq_refl _ _ _ _ _);
      vm_compute; reflexivity. }
  refine (proj2 (proj2 (proj2 (proj2 (analysis_null_cases a_key (lit "hi")
            Rejected)))) (lit "Here you go: ") (bq "`mood`:`sad`} ") _).
  vm_compute. intuition discriminate.
Defined.

(** What a result that is not null went through. *)
Lemma mood_of_response_some (r : FetchOutcome) (v : json) :
  mood_of_response r = Some v ->
  basic_validation v = true
  /\ exists body data text,
       r = Response true body
       /\ JSON_parse body = Some data
       /\ generation_text data = JStr text
       /\ JSON_parse (json_candidate text) = Some v.
Proof.
  unfold mood_of_response.
  destruct r as [|[] body]; try discriminate.
  destruct (JSON_parse body) as [data|] eqn:Hbody; [| discriminate].
  destruct (generation_text data) as [| | |text| |] eqn:Htext;
    try discriminate.
  destruct (JSON_parse (json_candidate text)) as [parsed|] eqn:Hparse;
    [| discriminate].
  destruct (basic_validation parsed) eqn:Hvalid; [| discriminate].
  intros [= <-]. split; [exact Hvalid |].
  exists body, data, text. auto.
Qed.

Lemma basic_validation_object (v : json) :
  basic_validation v = true ->
  (exists members, v = JObj members)
  /\ (truthy_opt (get_field (lit "mood") v) = true
      \/ truthy_opt (get_field (lit "habits") v) = true).
Proof.
  unfold basic_validation. rewrite andb_true_iff, orb_true_iff.
  intros [_ H]. split; [| exact H].
  destruct v; simpl in H; try (destruct H; discriminate).
  eexists. reflexivity.
Qed.

(** C6, as the code has it: a result that is not null is the value parsed
    from the text the backend generated, taken from its first brace on; it is
    an object, and its mood field or its habits field is truthy.  Nothing
    else about it is checked. *)
Theorem analysis_passed_basic_validation (key : option jsstring)
    (userText : jsstring) (r : FetchOutcome) (v : json) :
  value (Route.callCohereAnalyzeMood key userText r) = Some v ->
  configured key = true
  /\ (exists members, v = JObj members)
  /\ (truthy_opt (get_field (lit "mood") v) = true
      \/ truthy_opt (get_field (lit "habits") v) = true)
  /\ exists body data text,
       r = Response true body
       /\ JSON_parse body = Some data
       /\ generation_text data = JStr text
       /\ JSON_parse (json_candidate text) = Some v.
Proof.
  unfold Route.callCohereAnalyzeMood, analyze_with.
  destruct (configured key); [| discriminate].
  unfold value; simpl. intros H.
  destruct (mood_of_response_some _ H) as [Hvalid Hfrom].
  destruct (basic_validation_object _ Hvalid) as [Hobj Hfield].
  auto.
Qed.

Lemma analysis_passed_basic_validation_witness :
  configured a_key = true
  /\ (exists members,
        JObj [(lit "mood", JStr (lit "sad")); (lit "habits", JArr [])]
        = JObj members)
  /\ (truthy_opt (get_field (lit "mood")
                    (JObj [(lit "mood", JStr (lit "sad"));
                           (lit "habits", JArr [])])) = true
      \/ truthy_opt (get_field (lit "habits")
                       (JObj [(lit "mood", JStr (lit "sad"));
                              (lit "habits", JArr [])])) = true)
  /\ exists body data text,
       Response true (generation_body (bq "Sure: {`mood`:`sad`,`habits`:[]}"))
       = Response true body
       /\ JSON_parse body = Some data
       /\ generation_text data = JStr text
       /\ JSON_parse (json_candidate text)
          = Some (JObj [(lit "mood", JStr (lit "sad")); (lit "habits", JArr [])]).
Proof.
  exact (@analysis_passed_basic_validation a_key (lit "I feel low")
           (Response true
              (generation_body (bq "Sure: {`mood`:`sad`,`habits`:[]}")))
           (JObj [(lit "mood", JStr (lit "sad")); (lit "habits", JArr [])])
           eq_refl).
Defined.

(** C6, as stated, fails: a generated object whose mood is none of the nine
    labels and that has no habits at all is returned as it is, and so is one
    with four habits that are not objects. *)
Lemma analysis_outside_the_shape :
  value (Route.callCohereAnalyzeMood a_key (lit "I won!")
           (Response true (generation_body (bq "{`mood`:`ecstatic`}"))))
  = Some (JObj [(lit "mood", JStr (lit "ecstatic"))])
  /\ well_formed_analysis (JObj [(lit "mood", JStr (lit "ecstatic"))]) = false
  /\ value (Route.callCohereAnalyzeMood a_key (lit "I won!")
              (Response true
                 (generation_body (bq "{`habits`:[`a`,`b`,`c`,`d`]}"))))
     = Some (JObj [(lit "habits",
                    JArr [JStr (lit "a"); JStr (lit "b"); JStr (lit "c");
                          JStr (lit "d")])])
  /\ well_formed_analysis
       (JObj [(lit "habits",
               JArr [JStr (lit "a"); JStr (lit "b"); JStr (lit "c");
                     JStr (lit "d")])]) = false.
Proof. repeat split; vm_compute; reflexivity. Qed.

(** ** The training file *)

(** The writes of the training file in a completed REST turn are those of
    its one call of [saveTrainingEntry]. *)
Lemma route_file_writes (env : Env) (req : Request) (t : Route.Turn) :
  value (Route.turn env req) = Some t ->
  file_writes (trace (Route.turn env req))
  = file_writes
      (trace (Route.saveTrainingEntry
                (Route.trainingData env req (Route.t_botReply t)
                   (Route.t_sourceLang t) (Route.t_source t))
                (training_file env))).
Proof.
  unfold file_writes. rewrite route_observed by reflexivity.
  rewrite route_turn_value. cbv zeta.
  destruct (previousChats env); [| discriminate].
  intros [= <-].
  cbn [Route.t_botReply Route.t_sourceLang Route.t_source].
  unfold Route.callCohereAnalyzeMood.
  rewrite route_bot_logic_calls, route_record_turn_calls, analyze_calls.
  simpl. rewrite flat_map_app.
  destruct (configured (COHERE_API_KEY env)), (cohere_client env),
    (str_eqb _ src_cohere || _); simpl; rewrite ?app_nil_r; reflexivity.
Qed.

(** C9, as the code has it: in every completed REST turn, whatever the
    source tag and the prefer flag, [saveTrainingEntry] is called with the
    record of the turn; it rewrites the training file with that record
    appended when the file is missing, empty or holds a JSON array, and
    writes nothing when the file cannot be read or holds anything else. *)
Theorem training_file_write (env : Env) (req : Request) (t : Route.Turn) :
  value (Route.turn env req) = Some t ->
  Route.trainingData env req (Route.t_botReply t) (Route.t_sourceLang t)
    (Route.t_source t)
  = JObj [(lit "userId", JStr (userId req));
          (lit "userMessage", JStr (message req));
          (lit "botReply", JStr (Route.t_botReply t));
          (lit "language", Route.t_sourceLang t);
          (lit "source", JStr (Route.t_source t));
          (lit "timestamp", JStr (now_iso env))]
  /\ (training_file env = NoFile \/ training_file env = FileText [] ->
        file_writes (trace (Route.turn env req))
        = [[Route.trainingData env req (Route.t_botReply t)
              (Route.t_sourceLang t) (Route.t_source t)]])
  /\ (forall raw arr,
        training_file env = FileText raw ->
        raw <> [] ->
        JSON_parse raw = Some (JArr arr) ->
        file_writes (trace (Route.turn env req))
        = [arr ++ [Route.trainingData env req (Route.t_botReply t)
                     (Route.t_sourceLang t) (Route.t_source t)]])
  /\ (training_file env = Unreadable ->
        file_writes (trace (Route.turn env req)) = [])
  /\ (forall raw,
        training_file env = FileText raw ->
        raw <> [] ->
        (forall arr, JSON_parse raw <> Some (JArr arr)) ->
        file_writes (trace (Route.turn env req)) = []).
Proof.
  intros H. rewrite (route_file_writes _ _ H).
  split; [reflexivity |].
  unfold Route.saveTrainingEntry.
  split; [intros [-> | ->]; reflexivity |].
  split.
  { intros raw arr -> Hraw Hparse. destruct raw; [contradiction |].
    simpl. rewrite Hparse. reflexivity. }
  split; [intros ->; reflexivity |].
  intros raw -> Hraw Hnot. destruct raw; [contradiction |]. simpl.
  destruct (JSON_parse _) as [[]|]; try reflexivity.
  exfalso. eapply Hnot. reflexivity.
Qed.

Lemma training_file_write_witness :
  file_writes (trace (Route.turn offline hello))
  = [[Route.trainingData offline hello UNAVAILABLE en src_error]]
  /\ file_writes (trace (Route.turn (with_file (bq "[{`userId`:`u0`}]")) hello))
     = [[JObj [(lit "userId", JStr (lit "u0"))]]
        ++ [Route.trainingData (with_file (bq "[{`userId`:`u0`}]")) hello
              UNAVAILABLE en src_error]].
Proof.
  split.
  - exact (proj1 (proj2 (@training_file_write offline hello
                           (Route.mkTurn (lit "user") en (lit "hello") true
                              (lit "User: hello" ++ nl ++ lit "Bot:")
                              UNAVAILABLE src_error None UNAVAILABLE)
                           eq_refl))
                 (or_introl eq_refl)).
  - refine (proj1 (proj2 (proj2 (@training_file_write
                     (with_file (bq "[{`userId`:`u0`}]")) hello
                     (Route.mkTurn (lit "user") en (lit "hello") true
                        (lit "User: hello" ++ nl ++ lit "Bot:")
                        UNAVAILABLE src_error None UNAVAILABLE)
                     eq_refl)))
                  (bq "[{`userId`:`u0`}]")
                  [JObj [(lit "userId", JStr (lit "u0"))]] eq_refl _ eq_refl).
    discriminate.
Defined.

(** C9, as stated, fails: with a training file that holds a JSON object the
    turn completes and nothing is written to the file; the same with a file
    that is not JSON. *)
Lemma no_record_for_unusable_file :
  option_map Route.t_source (value (Route.turn (with_file (lit "{}")) hello))
  = Some src_error
  /\ file_writes (trace (Route.turn (with_file (lit "{}")) hello)) = []
  /\ option_map Route.t_source
       (value (Route.turn (with_file (lit "[{")) hello))
     = Some src_error
  /\ file_writes (trace (Route.turn (with_file (lit "[{")) hello)) = [].
Proof. repeat split; vm_compute; reflexivity. Qed.

(** ** More about the calls of a turn *)

(** X1: a REST turn sends the generative backend at most one request, and
    that request is the fixed preamble around the canonicalized message; the
    stored transcript is not part of it. *)
Theorem route_chat_request (env : Env) (req : Request) :
  chat_requests (trace (Route.turn env req))
  = match previousChats env with
    | None => []
    | Some _ =>
        if configured (COHERE_API_KEY env) && cohere_client env
        then [Route.chat_message
                (value (Route.to_english env req
                          (value (Route.resolve_language env req))))]
        else []
    end.
Proof.
  unfold chat_requests. rewrite route_observed by reflexivity.
  destruct (previousChats env); [| reflexivity]. cbv zeta.
  unfold Route.callCohereAnalyzeMood.
  rewrite route_bot_logic_calls, route_record_turn_calls, analyze_calls.
  simpl. rewrite flat_map_app, saveTrainingEntry_skipped by reflexivity.
  destruct (configured (COHERE_API_KEY env)), (cohere_client env),
    (str_eqb _ src_cohere || _); reflexivity.
Qed.

(** X2: a completed REST turn creates one training document when the reply
    is tagged cohere or the message is flagged, and none otherwise. *)
Theorem route_training_candidate (env : Env) (req : Request) (t : Route.Turn) :
  value (Route.turn env req) = Some t ->
  (training_creates (trace (Route.turn env req))
   = [Route.training_doc req (Route.t_botReply t) (Route.t_sourceLang t)
        (Route.t_source t)]
   /\ (Route.t_source t = src_cohere \/ Route.t_preferCohere t = true))
  \/ (training_creates (trace (Route.turn env req)) = []
      /\ Route.t_source t <> src_cohere /\ Route.t_preferCohere t = false).
Proof.
  unfold training_creates. rewrite route_observed by reflexivity.
  rewrite route_turn_value. cbv zeta.
  destruct (previousChats env); [| discriminate].
  intros [= <-]. cbn [Route.t_botReply Route.t_sourceLang Route.t_source
                      Route.t_preferCohere].
  unfold Route.callCohereAnalyzeMood.
  rewrite route_bot_logic_calls, route_record_turn_calls, analyze_calls.
  set (reply := value (Route.bot_logic env _)).
  set (prefer := preferCohere _).
  simpl. rewrite flat_map_app, saveTrainingEntry_skipped by reflexivity.
  destruct (str_eqb (snd reply) src_cohere) eqn:Hsrc.
  - left. split; [| left; apply str_eqb_eq, Hsrc].
    destruct (configured (COHERE_API_KEY env)), (cohere_client env);
      reflexivity.
  - destruct prefer.
    + left. split; [| right; reflexivity].
      destruct (configured (COHERE_API_KEY env)), (cohere_client env);
        reflexivity.
    + right. split; [| split; [| reflexivity]].
      * destruct (configured (COHERE_API_KEY env)), (cohere_client env);
          reflexivity.
      * intros Heq. apply str_eqb_eq in Heq. congruence.
Qed.

Lemma route_training_candidate_witness :
  (training_creates (trace (Route.turn offline hello))
   = [Route.training_doc hello UNAVAILABLE en src_error]
   /\ (src_error = src_cohere \/ true = true))
  \/ (training_creates (trace (Route.turn offline hello)) = []
      /\ src_error <> src_cohere /\ true = false).
Proof.
  exact (@route_training_candidate offline hello
           (Route.mkTurn (lit "user") en (lit "hello") true
              (lit "User: hello" ++ nl ++ lit "Bot:")
              UNAVAILABLE src_error None UNAVAILABLE)
           eq_refl).
Defined.

(** X3: a socket turn creates one training document when the reply is
    tagged cohere, and none otherwise; no flag on the message is looked at. *)
Theorem socket_training_candidate (env : Env) (req : Request) :
  training_creates (trace (Socket.turn env req))
  = if str_eqb (Socket.t_source (value (Socket.turn env req))) src_cohere
    then [Socket.training_doc req
            (Socket.t_botReply (value (Socket.turn env req)))
            (Socket.t_sourceLang (value (Socket.turn env req)))
            (Socket.t_source (value (Socket.turn env req)))]
    else [].
Proof.
  unfold training_creates. rewrite socket_observed by reflexivity.
  rewrite socket_turn_value. cbv zeta.
  cbn [Socket.t_botReply Socket.t_sourceLang Socket.t_source].
  unfold Socket.callCohereAnalyzeMood.
  rewrite socket_bot_logic_calls, socket_record_turn_calls, analyze_calls.
  set (reply := value (Socket.bot_logic env _)).
  destruct (configured (COHERE_API_KEY env)), (cohere_client env),
    (str_eqb (snd reply) src_cohere); reflexivity.
Qed.

(** X4: the REST response has a moodAnalysis key exactly when the analysis
    is not null, and then it holds the analysis; the socket payload always
    has the key, holding null when there is no analysis. *)
Theorem response_mood_key (rt : Route.Turn) (st : Socket.Turn) :
  get_field (lit "moodAnalysis") (Route.resp rt) = Route.t_moodAnalysis rt
  /\ get_field (lit "moodAnalysis") (Socket.resp st)
     = Some match Socket.t_moodAnalysis st with
            | Some analysis => analysis
            | None => JNull
            end.
Proof.
  split.
  - unfold Route.resp. destruct (Route.t_moodAnalysis rt); reflexivity.
  - unfold Socket.resp. destruct (Socket.t_moodAnalysis st); reflexivity.
Qed.

(** ** More about [translate] *)

(** The bodies [translate] takes for malformed: not JSON, a falsy value, or
    a value whose element 0 is not an array. *)
Lemma translated_of_malformed (rt : Runtime) (data : json) (text : jsstring) :
  truthy data = false \/ (forall chunks, get_index 0 data <> Some (JArr chunks)) ->
  translated_of rt data text = text.
Proof.
  unfold translated_of. intros [-> | H]; [reflexivity |].
  destruct (negb (truthy data)); [reflexivity |].
  destruct (get_index 0 data) as [[]|]; try reflexivity.
  exfalso. eapply H. reflexivity.
Qed.

Lemma fetch_translation_fallback (rt : Runtime) (text : jsstring)
    (source target : json) (r : FetchOutcome) :
  r = Rejected
  \/ (exists body, r = Response false body)
  \/ (exists body, r = Response true body /\ JSON_parse body = None)
  \/ (exists body data,
        r = Response true body /\ JSON_parse body = Some data
        /\ (truthy data = false
            \/ forall chunks, get_index 0 data <> Some (JArr chunks))) ->
  value (fetch_translation rt text source target r) = text.
Proof.
  intros H. unfold fetch_translation.
  destruct (encodeURIComponent text); [| reflexivity].
  unfold value; simpl.
  destruct H as [-> | [[body ->] | [[body [-> Hb]] | [body [data [-> [Hb Hd]]]]]]];
    try reflexivity.
  - rewrite Hb. reflexivity.
  - rewrite Hb. apply translated_of_malformed, Hd.
Qed.

(** X5: both copies of translate return the text, with no call, when the two
    codes are the same; the socket's copy does so for the empty text too;
    both return the text when the text cannot be encoded (with no call), when
    the call is rejected or aborted, when the status is not ok, and when the
    body is not JSON, is falsy, or has no array as element 0. *)
Theorem translate_fallbacks (rt : Runtime) (text : jsstring)
    (source target : json) (r : FetchOutcome) :
  (strict_equal rt source target = true ->
     Route.translate rt text source target r = (text, [])
     /\ Socket.translate rt text source target r = (text, []))
  /\ Socket.translate rt [] source target r = ([], [])
  /\ (encodeURIComponent text = None ->
        Route.translate rt text source target r = (text, [])
        /\ Socket.translate rt text source target r = (text, []))
  /\ (r = Rejected
      \/ (exists body, r = Response false body)
      \/ (exists body, r = Response true body /\ JSON_parse body = None)
      \/ (exists body data,
            r = Response true body /\ JSON_parse body = Some data
            /\ (truthy data = false
                \/ forall chunks, get_index 0 data <> Some (JArr chunks))) ->
        value (Route.translate rt text source target r) = text
        /\ value (Socket.translate rt text source target r) = text).
Proof.
  unfold Route.translate, Socket.translate.
  split.
  { intros ->. destruct (is_empty text); split; reflexivity. }
  split; [reflexivity |].
  split.
  { intros H. unfold fetch_translation. rewrite H.
    destruct (is_empty text), (strict_equal rt source target);
      split; reflexivity. }
  intros H.
  destruct (is_empty text), (strict_equal rt source target);
    split; try reflexivity; apply fetch_translation_fallback, H.
Qed.

Lemma translate_fallbacks_witness :
  (Route.translate no_numbers (lit "bonjour") fr fr Rejected
   = (lit "bonjour", [])
   /\ Socket.translate no_numbers (lit "bonjour") fr fr Rejected
      = (lit "bonjour", []))
  /\ (Route.translate no_numbers [55357%N] fr en Rejected = ([55357%N], [])
      /\ Socket.translate no_numbers [55357%N] fr en Rejected
         = ([55357%N], []))
  /\ (value (Route.translate no_numbers (lit "bonjour") fr en
               (Response true (bq "{`error`:`quota`}"))) = lit "bonjour"
      /\ value (Socket.translate no_numbers (lit "bonjour") fr en
                  (Response true (bq "{`error`:`quota`}"))) = lit "bonjour").
Proof.
  split.
  { exact (proj1 (translate_fallbacks no_numbers (lit "bonjour") fr fr Rejected)
                 eq_refl). }
  split.
  { exact (proj1 (proj2 (proj2
             (translate_fallbacks no_numbers [55357%N] fr en Rejected)))
             eq_refl). }
  refine (proj2 (proj2 (proj2
            (translate_fallbacks no_numbers (lit "bonjour") fr en
               (Response true (bq "{`error`:`quota`}"))))) _).
  right. right. right.
  exists (bq "{`error`:`quota`}"),
         (JObj [(lit "error", JStr (lit "quota"))]).
  split; [reflexivity |]. split; [vm_compute; reflexivity |].
  right. intros chunks. vm_compute. discriminate.
Defined.

(** ** The texts the route translates *)

Lemma route_post_trace (env : Env) (req : Request) :
  is_empty (message req) || is_empty (userId req) = false ->
  trace (Route.post env req) = trace (Route.turn env req)
  /\ value (Route.post env req)
     = match value (Route.turn env req) with
       | Some t => Route.mkReply 200 (Route.resp t)
       | None =>
           Route.mkReply 500
             (JObj [(lit "sender", JStr (lit "bot"));
                    (lit "text", JStr ([9888%N; 65039%N]
                                       ++ lit " Sorry, bot unavailable."))])
       end.
Proof.
  intros H. unfold Route.post. rewrite H, trace_bind, value_bind.
  split; [apply app_nil_r |].
  destruct (value (Route.turn env req)); reflexivity.
Qed.







(** ** Validation and extraction *)

(** X6: a request without a message or without a userId is answered with the
    client error and no call at all, on the route and on the socket. *)
Theorem missing_fields_rejected (env : Env) (req : Request) :
  is_empty (message req) || is_empty (userId req) = true ->
  Route.post env req
  = (Route.mkReply 400
       (JObj [(lit "error", JStr (lit "Message and userId required"))]), [])
  /\ Socket.chatbotMessage env (Some req)
     = (Socket.mkEmitted (lit "chatbotError")
          (JObj [(lit "error", JStr (lit "userId and message required"))]), [])
  /\ Socket.chatbotMessage env None
     = (Socket.mkEmitted (lit "chatbotError")
          (JObj [(lit "error", JStr (lit "userId and message required"))]), []).
Proof.
  intros H. unfold Route.post, Socket.chatbotMessage.
  rewrite H. rewrite orb_comm in H. rewrite H.
  repeat split; reflexivity.
Qed.

Lemma missing_fields_rejected_witness :
  Route.post offline (mkRequest (lit "u1") [] None)
  = (Route.mkReply 400
       (JObj [(lit "error", JStr (lit "Message and userId required"))]), [])
  /\ Socket.chatbotMessage offline (Some (mkRequest (lit "u1") [] None))
     = (Socket.mkEmitted (lit "chatbotError")
          (JObj [(lit "error", JStr (lit "userId and message required"))]), [])
  /\ Socket.chatbotMessage offline None
     = (Socket.mkEmitted (lit "chatbotError")
          (JObj [(lit "error", JStr (lit "userId and message required"))]), []).
Proof.
  exact (@missing_fields_rejected offline (mkRequest (lit "u1") [] None)
           eq_refl).
Defined.

(** X7: the extraction prompt of a REST turn is built from the message as
    the user sent it, not from its translation. *)
Theorem analysis_reads_original_message (env : Env) (req : Request) :
  generate_prompts (trace (Route.turn env req))
  = match previousChats env with
    | None => []
    | Some _ =>
        if configured (COHERE_API_KEY env)
        then [Route.moodPrompt (message req)] else []
    end.
Proof.
  unfold generate_prompts. rewrite route_observed by reflexivity.
  destruct (previousChats env); [| reflexivity]. cbv zeta.
  unfold Route.callCohereAnalyzeMood.
  rewrite route_bot_logic_calls, route_record_turn_calls, analyze_calls.
  simpl. rewrite flat_map_app, saveTrainingEntry_skipped by reflexivity.
  destruct (configured (COHERE_API_KEY env)), (cohere_client env),
    (str_eqb _ src_cohere || _); reflexivity.
Qed.

(** ** Language detection *)

(** X8: detectLanguage never returns a falsy value.  It returns en, with no
    call, when the text cannot be encoded, and en when the call is rejected
    or aborted, when the status is not ok, when the body is not JSON, and
    when the body or its element 2 is falsy; otherwise it returns element 2
    of the body as it is, string or not. *)
Theorem detect_fallbacks (text : jsstring) (r : FetchOutcome) :
  truthy (value (detectLanguage text r)) = true
  /\ (encodeURIComponent text = None -> detectLanguage text r = (en, []))
  /\ (r = Rejected
      \/ (exists body, r = Response false body)
      \/ (exists body, r = Response true body /\ JSON_parse body = None)
      \/ (exists body data,
            r = Response true body /\ JSON_parse body = Some data
            /\ (truthy data = false
                \/ truthy_opt (get_index 2 data) = false)) ->
      value (detectLanguage text r) = en)
  /\ (forall q body data code,
        encodeURIComponent text = Some q ->
        r = Response true body ->
        JSON_parse body = Some data ->
        truthy data = true ->
        get_index 2 data = Some code ->
        truthy code = true ->
        value (detectLanguage text r) = code).
Proof.
  unfold detectLanguage.
  destruct (encodeURIComponent text) as [q|]; unfold value; simpl.
  - split.
    { destruct r as [|[] body]; try reflexivity.
      destruct (JSON_parse body) as [data|]; [| reflexivity].
      destruct (truthy data); [| reflexivity].
      destruct (get_index 2 data) as [v|]; [| reflexivity].
      destruct (truthy v) eqn:E; [exact E | reflexivity]. }
    split; [discriminate |].
    split.
    { intros [-> | [[body ->] | [[body [-> Hb]] | [body [data [-> [Hb Hd]]]]]]];
        try reflexivity.
      - rewrite Hb. reflexivity.
      - rewrite Hb. destruct Hd as [-> | Hd]; [reflexivity |].
        destruct (truthy data); [| reflexivity].
        destruct (get_index 2 data) as [v|]; [| reflexivity].
        simpl in Hd. rewrite Hd. reflexivity. }
    intros q' body data code _ -> Hb Hd Hc Ht.
    rewrite Hb, Hd, Hc, Ht. reflexivity.
  - split; [reflexivity |]. split; [reflexivity |].
    split; [reflexivity |]. discriminate.
Qed.

Lemma detect_fallbacks_witness :
  detectLanguage [55357%N] Rejected = (en, [])
  /\ value (detectLanguage (lit "hola") (Response true (bq "[[[`hi`]],null]")))
     = en
  /\ value (detectLanguage (lit "hola")
              (Response true (bq "[[[`hello`,`hola`]],null,`es`]")))
     = JStr (lit "es")
  /\ value (detectLanguage (lit "hola") (Response true (bq "[0,0,[`es`]]")))
     = JArr [JStr (lit "es")].
Proof.
  split.
  { exact (proj1 (proj2 (detect_fallbacks [55357%N] Rejected)) eq_refl). }
  split.
  { refine (proj1 (proj2 (proj2 (detect_fallbacks (lit "hola")
              (Response true (bq "[[[`hi`]],null]"))))) _).
    right. right. right.
    exists (bq "[[[`hi`]],null]"),
           (JArr [JArr [JArr [JStr (lit "hi")]]; JNull]).
    split; [reflexivity |]. split; [vm_compute; reflexivity |].
    right. reflexivity. }
  split.
  { refine (proj2 (proj2 (proj2 (detect_fallbacks (lit "hola")
              (Response true (bq "[[[`hello`,`hola`]],null,`es`]")))))
              (lit "hola") _
              (JArr [JArr [JArr [JStr (lit "hello"); JStr (lit "hola")]];
                     JNull; JStr (lit "es")])
              (JStr (lit "es")) _ eq_refl _ _ _ _);
      vm_compute; reflexivity. }
  refine (proj2 (proj2 (proj2 (detect_fallbacks (lit "hola")
            (Response true (bq "[0,0,[`es`]]")))))
            (lit "hola") _
            (JArr [JNum (mkNumber false 0 0); JNum (mkNumber false 0 0);
                   JArr [JStr (lit "es")]])
            (JArr [JStr (lit "es")]) _ eq_refl _ _ _ _);
    vm_compute; reflexivity.
Defined.

(** ** What a translation is made of *)

Lemma chunks_fold (rt : Runtime) (pieces : list (jsstring * list json))
    (acc : jsstring) :
  fold_left
    (fun translated chunk =>
       if truthy chunk && truthy_opt (get_index 0 chunk)
       then translated
            ++ match get_index 0 chunk with
               | Some piece => ToString rt piece
               | None => []
               end
       else translated)
    (map (fun p => JArr (JStr (fst p) :: snd p)) pieces) acc
  = acc ++ concat (map fst pieces).
Proof.
  revert acc. induction pieces as [|[s tail] pieces IH]; intros acc; simpl.
  - rewrite app_nil_r. reflexivity.
  - rewrite IH. destruct s; simpl.
    + reflexivity.
    + rewrite <- app_assoc. reflexivity.
Qed.

(** X9: when the service answers an array whose element 0 is an array of
    chunks that each begin with a string, both copies of translate return
    those strings joined in order, and the original text when they join to
    nothing. *)
Theorem translate_joins_chunks (rt : Runtime) (text q : jsstring)
    (source target : json) (body : jsstring)
    (pieces : list (jsstring * list json)) (rest : list json) :
  is_empty text = false ->
  strict_equal rt source target = false ->
  encodeURIComponent text = Some q ->
  JSON_parse body
  = Some (JArr (JArr (map (fun p => JArr (JStr (fst p) :: snd p)) pieces)
                :: rest)) ->
  value (Route.translate rt text source target (Response true body))
  = str_or (concat (map fst pieces)) text
  /\ value (Socket.translate rt text source target (Response true body))
     = str_or (concat (map fst pieces)) text.
Proof.
  intros Ht Hs Hq Hb.
  unfold Route.translate, Socket.translate, fetch_translation.
  rewrite Ht, Hs, Hq. unfold value; simpl. rewrite Hb.
  unfold translated_of. simpl. rewrite chunks_fold. split; reflexivity.
Qed.

Lemma translate_joins_chunks_witness :
  value (Route.translate no_numbers (lit "bonjour le monde") fr en
           (Response true
              (bq "[[[`hello `,`bonjour `],[`world`,`le monde`]],null,`fr`]")))
  = str_or (concat [lit "hello "; lit "world"]) (lit "bonjour le monde")
  /\ value (Socket.translate no_numbers (lit "bonjour le monde") fr en
              (Response true
                 (bq "[[[`hello `,`bonjour `],[`world`,`le monde`]],null,`fr`]")))
     = str_or (concat [lit "hello "; lit "world"]) (lit "bonjour le monde").
Proof.
  refine (@translate_joins_chunks no_numbers (lit "bonjour le monde")
            (lit "bonjour%20le%20monde") fr en
            (bq "[[[`hello `,`bonjour `],[`world`,`le monde`]],null,`fr`]")
            [(lit "hello ", [JStr (lit "bonjour ")]);
             (lit "world", [JStr (lit "le monde")])]
            [JNull; JStr (lit "fr")] eq_refl eq_refl _ _);
    vm_compute; reflexivity.
Defined.

(** ** Turns in English *)

(** X10: when the source language is en, given or detected, neither handler
    translates: the message is generated from as it is, the reply goes back
    as it is, and the only GET of the turn is the detection's, if there was
    one; a request that says en makes no GET at all. *)
Theorem english_turn_skips_translation (env : Env) (req : Request) :
  (is_en (value (Route.resolve_language env req)) = true ->
     fetched_urls (trace (Route.turn env req))
     = fetched_urls (trace (Route.resolve_language env req))
     /\ forall t, value (Route.turn env req) = Some t ->
          Route.t_translatedText t = message req
          /\ Route.t_finalReply t = Route.t_botReply t)
  /\ (is_en (value (Socket.resolve_language env req)) = true ->
        fetched_urls (trace (Socket.turn env req))
        = fetched_urls (trace (Socket.resolve_language env req))
        /\ Socket.t_translatedText (value (Socket.turn env req)) = message req
        /\ Socket.t_finalReply (value (Socket.turn env req))
           = Socket.t_botReply (value (Socket.turn env req)))
  /\ (lang req = Some (lit "en") ->
        fetched_urls (trace (Route.turn env req)) = []
        /\ fetched_urls (trace (Socket.turn env req)) = []).
Proof.
  assert (HR : is_en (value (Route.resolve_language env req)) = true ->
               fetched_urls (trace (Route.turn env req))
               = fetched_urls (trace (Route.resolve_language env req))
               /\ forall t, value (Route.turn env req) = Some t ->
                    Route.t_translatedText t = message req
                    /\ Route.t_finalReply t = Route.t_botReply t).
  { intros H. split.
    - unfold fetched_urls. rewrite route_turn_trace. cbv zeta.
      rewrite !flat_map_app.
      unfold Route.to_english, Route.translate_back. rewrite H.
      destruct (previousChats env); [| simpl; rewrite app_nil_r; reflexivity].
      unfold Route.callCohereAnalyzeMood.
      rewrite route_bot_logic_calls, route_record_turn_calls, analyze_calls.
      rewrite ?flat_map_app. cbn [flat_map]. rewrite ?flat_map_app.
      rewrite saveTrainingEntry_skipped by reflexivity.
      destruct (configured (COHERE_API_KEY env)),
        (cohere_client env), (str_eqb _ src_cohere || _);
        simpl; rewrite ?app_nil_r; reflexivity.
    - intros t. rewrite route_turn_value. cbv zeta.
      destruct (previousChats env); [| discriminate].
      intros [= <-]. simpl.
      unfold Route.to_english, Route.translate_back. rewrite H.
      split; reflexivity. }
  assert (HS : is_en (value (Socket.resolve_language env req)) = true ->
               fetched_urls (trace (Socket.turn env req))
               = fetched_urls (trace (Socket.resolve_language env req))
               /\ Socket.t_translatedText (value (Socket.turn env req))
                  = message req
               /\ Socket.t_finalReply (value (Socket.turn env req))
                  = Socket.t_botReply (value (Socket.turn env req))).
  { intros H. split.
    - unfold fetched_urls. rewrite socket_turn_trace. cbv zeta.
      rewrite !flat_map_app.
      unfold Socket.to_english, Socket.translate_back. rewrite H.
      unfold Socket.callCohereAnalyzeMood.
      rewrite socket_bot_logic_calls, socket_record_turn_calls, analyze_calls.
      simpl.
      destruct (configured (COHERE_API_KEY env)), (cohere_client env),
        (str_eqb _ src_cohere); simpl; rewrite ?app_nil_r; reflexivity.
    - rewrite socket_turn_value. cbv zeta. simpl.
      unfold Socket.to_english, Socket.translate_back. rewrite H.
      split; reflexivity. }
  split; [exact HR |]. split; [exact HS |].
  intros Hl.
  assert (HRl : Route.resolve_language env req = (en, [])).
  { unfold Route.resolve_language, lang_or_auto. rewrite Hl. reflexivity. }
  assert (HSl : Socket.resolve_language env req = (en, [])).
  { unfold Socket.resolve_language, lang_or_auto. rewrite Hl. reflexivity. }
  split.
  - rewrite (proj1 (HR ltac:(rewrite HRl; reflexivity))), HRl. reflexivity.
  - rewrite (proj1 (HS ltac:(rewrite HSl; reflexivity))), HSl. reflexivity.
Qed.

Lemma english_turn_skips_translation_witness :
  (fetched_urls
     (trace (Route.turn (answering (lit "Fine.") [])
               (mkRequest (lit "u1") (lit "how are you") None)))
   = fetched_urls
       (trace (Route.resolve_language (answering (lit "Fine.") [])
                 (mkRequest (lit "u1") (lit "how are you") None)))
   /\ forall t,
        value (Route.turn (answering (lit "Fine.") [])
                 (mkRequest (lit "u1") (lit "how are you") None)) = Some t ->
        Route.t_translatedText t = lit "how are you"
        /\ Route.t_finalReply t = Route.t_botReply t)
  /\ (fetched_urls (trace (Route.turn (answering (lit "Fine.") []) how_are_you))
      = []
      /\ fetched_urls
           (trace (Socket.turn (answering (lit "Fine.") []) how_are_you)) = []).
Proof.
  split.
  - exact (proj1 (english_turn_skips_translation (answering (lit "Fine.") [])
                    (mkRequest (lit "u1") (lit "how are you") None))
                 eq_refl).
  - exact (proj2 (proj2 (english_turn_skips_translation
                           (answering (lit "Fine.") []) how_are_you))
                 eq_refl).
Defined.

(** ** When the history cannot be read *)

(** X11: when ChatHistory.find rejects, the REST handler answers 500 with the
    fixed apology and has by then called neither the generative backend nor
    the extraction backend, and has stored nothing: no history document, no
    training document, no write of the training file. *)
Theorem history_failure_stops_turn (env : Env) (req : Request) :
  is_empty (message req) || is_empty (userId req) = false ->
  previousChats env = None ->
  value (Route.post env req)
  = Route.mkReply 500
      (JObj [(lit "sender", JStr (lit "bot"));
             (lit "text", JStr ([9888%N; 65039%N]
                                ++ lit " Sorry, bot unavailable."))])
  /\ chat_requests (trace (Route.post env req)) = []
  /\ generate_prompts (trace (Route.post env req)) = []
  /\ history_creates (trace (Route.post env req)) = []
  /\ training_creates (trace (Route.post env req)) = []
  /\ file_writes (trace (Route.post env req)) = [].
Proof.
  intros Hreq Hfind.
  destruct (route_post_trace env req Hreq) as [-> ->].
  rewrite route_turn_value. cbv zeta. rewrite Hfind.
  split; [reflexivity |].
  unfold chat_requests, generate_prompts, history_creates, training_creates,
    file_writes.
  rewrite !route_observed by reflexivity. rewrite Hfind.
  repeat split; reflexivity.
Qed.

Lemma history_failure_stops_turn_witness :
  value (Route.post
           (mkEnv no_numbers a_key true NoUser Rejected Rejected None
                  (ChatText (lit "Fine.")) NoFile a_time Rejected Rejected)
           hello)
  = Route.mkReply 500
      (JObj [(lit "sender", JStr (lit "bot"));
             (lit "text", JStr ([9888%N; 65039%N]
                                ++ lit " Sorry, bot unavailable."))])
  /\ chat_requests
       (trace (Route.post
                 (mkEnv no_numbers a_key true NoUser Rejected Rejected None
                        (ChatText (lit "Fine.")) NoFile a_time Rejected
                        Rejected)
                 hello)) = [].
Proof.
  destruct (@history_failure_stops_turn
              (mkEnv no_numbers a_key true NoUser Rejected Rejected None
                     (ChatText (lit "Fine.")) NoFile a_time Rejected Rejected)
              hello eq_refl eq_refl) as [H1 [H2 _]].
  exact (conj H1 H2).
Defined.

(** ** What is stored as history *)

(** X12: a completed turn stores exactly one history document, on the route
    and on the socket; it holds the message as the user sent it, not its
    translation, and the reply as generated, before it is translated back. *)
Theorem history_document (env : Env) (req : Request) :
  (forall t, value (Route.turn env req) = Some t ->
     exists doc,
       history_creates (trace (Route.turn env req)) = [doc]
       /\ get_field (lit "userId") doc = Some (JStr (userId req))
       /\ get_field (lit "userMessage") doc = Some (JStr (message req))
       /\ get_field (lit "botReply") doc = Some (JStr (Route.t_botReply t))
       /\ get_field (lit "language") doc = Some (Route.t_sourceLang t))
  /\ exists doc,
       history_creates (trace (Socket.turn env req)) = [doc]
       /\ get_field (lit "userId") doc = Some (JStr (userId req))
       /\ get_field (lit "userMessage") doc = Some (JStr (message req))
       /\ get_field (lit "botReply") doc
          = Some (JStr (Socket.t_botReply (value (Socket.turn env req))))
       /\ get_field (lit "language") doc
          = Some (Socket.t_sourceLang (value (Socket.turn env req))).
Proof.
  split.
  - intros t. unfold history_creates.
    rewrite route_observed by reflexivity.
    rewrite route_turn_value. cbv zeta.
    destruct (previousChats env); [| discriminate].
    intros [= <-].
    cbn [Route.t_botReply Route.t_sourceLang].
    unfold Route.callCohereAnalyzeMood.
    rewrite route_bot_logic_calls, route_record_turn_calls, analyze_calls.
    eexists. split.
    + simpl. rewrite flat_map_app, saveTrainingEntry_skipped by reflexivity.
      destruct (configured (COHERE_API_KEY env)), (cohere_client env),
        (str_eqb _ src_cohere || _); reflexivity.
    + repeat split; reflexivity.
  - unfold history_creates. rewrite socket_observed by reflexivity.
    rewrite socket_turn_value. cbv zeta.
    cbn [Socket.t_botReply Socket.t_sourceLang].
    unfold Socket.callCohereAnalyzeMood.
    rewrite socket_bot_logic_calls, socket_record_turn_calls, analyze_calls.
    eexists. split.
    + simpl.
      destruct (configured (COHERE_API_KEY env)), (cohere_client env),
        (str_eqb _ src_cohere); reflexivity.
    + repeat split; reflexivity.
Qed.

(** ** The source tag *)

(** X13: on the route and on the socket the source tag is cohere, error or
    default; it is cohere exactly when a key and a client are there and the
    backend answered a text that does not trim to nothing, and the reply is
    then that text trimmed. *)
Theorem source_tag_meaning (env : Env) (text : jsstring) :
  (snd (value (Route.bot_logic env text)) = src_cohere
   \/ snd (value (Route.bot_logic env text)) = src_error
   \/ snd (value (Route.bot_logic env text)) = src_default)
  /\ value (Socket.bot_logic env text)
     = (if str_eqb (snd (value (Route.bot_logic env text))) src_default
        then (Socket.DEFAULT, src_default)
        else value (Route.bot_logic env text))
  /\ (snd (value (Route.bot_logic env text)) = src_cohere
      <-> exists answer,
            configured (COHERE_API_KEY env) = true
            /\ cohere_client env = true
            /\ chat_response env = ChatText answer
            /\ trim answer <> [])
  /\ (forall answer,
        snd (value (Route.bot_logic env text)) = src_cohere ->
        chat_response env = ChatText answer ->
        fst (value (Route.bot_logic env text)) = trim answer).
Proof.
  rewrite route_bot_logic_cases, socket_bot_logic_cases.
  destruct (configured (COHERE_API_KEY env)); simpl.
  2:{ split; [right; left; reflexivity |]. split; [reflexivity |].
      split; [| discriminate].
      split; [discriminate | intros [a [H _]]; discriminate]. }
  destruct (cohere_client env); simpl.
  2:{ split; [right; left; reflexivity |]. split; [reflexivity |].
      split; [| discriminate].
      split; [discriminate | intros [a [_ [H _]]]; discriminate]. }
  destruct (chat_response env) as [|answer]; simpl.
  { split; [right; left; reflexivity |]. split; [reflexivity |].
    split; [| discriminate].
    split; [discriminate | intros [a [_ [_ [H _]]]]; discriminate]. }
  destruct (trim answer) as [|c rest] eqn:Htrim; simpl.
  - split; [right; right; reflexivity |]. split; [reflexivity |].
    split; [| discriminate].
    split; [discriminate |].
    intros [a [_ [_ [[= <-] H]]]]. contradiction.
  - split; [left; reflexivity |]. split; [reflexivity |].
    split.
    + split; [| reflexivity]. intros _. exists answer.
      rewrite Htrim. repeat split; discriminate.
    + intros a _ [= <-]. symmetry. exact Htrim.
Qed.

(** ** What the socket handler leaves alone *)

(** X14: a socket turn reads nothing from the database and writes no
    training file, and a payload with a userId and a message is always
    answered with a chatbotResponse; a REST turn starts with the user lookup
    and the history query, in that order among its database reads. *)
Theorem socket_touches_less (env : Env) (req : Request) :
  db_reads (trace (Socket.turn env req)) = []
  /\ file_writes (trace (Socket.turn env req)) = []
  /\ db_reads (trace (Route.turn env req))
     = [UserFindOne (userId req); ChatHistoryFind (userId req)]
  /\ (is_empty (userId req) || is_empty (message req) = false ->
        Socket.event (value (Socket.chatbotMessage env (Some req)))
        = lit "chatbotResponse"
        /\ trace (Socket.chatbotMessage env (Some req))
           = trace (Socket.turn env req)).
Proof.
  unfold db_reads, file_writes.
  rewrite !socket_observed by reflexivity.
  rewrite route_observed by reflexivity. cbv zeta.
  unfold Socket.callCohereAnalyzeMood, Route.callCohereAnalyzeMood.
  rewrite socket_bot_logic_calls, socket_record_turn_calls, !analyze_calls.
  split.
  { destruct (configured (COHERE_API_KEY env)), (cohere_client env),
      (str_eqb _ src_cohere); reflexivity. }
  split.
  { destruct (configured (COHERE_API_KEY env)), (cohere_client env),
      (str_eqb _ src_cohere); reflexivity. }
  split.
  { destruct (previousChats env); [| reflexivity].
    rewrite route_bot_logic_calls, route_record_turn_calls.
    rewrite ?flat_map_app. cbn [flat_map]. rewrite ?flat_map_app.
    rewrite saveTrainingEntry_skipped by reflexivity.
    destruct (configured (COHERE_API_KEY env)), (cohere_client env),
      (str_eqb _ src_cohere || _); reflexivity. }
  intros H. unfold Socket.chatbotMessage. rewrite H.
  rewrite value_bind, trace_bind. split; [reflexivity | apply app_nil_r].
Qed.

Lemma socket_touches_less_witness :
  Socket.event (value (Socket.chatbotMessage offline (Some hello)))
  = lit "chatbotResponse"
  /\ trace (Socket.chatbotMessage offline (Some hello))
     = trace (Socket.turn offline hello).
Proof.
  exact (proj2 (proj2 (proj2 (socket_touches_less offline hello))) eq_refl).
Defined.

(** ** The REST response *)

(** X15: once the request has a message and a userId and the history query
    succeeds, the REST handler answers 200 whatever the user lookup, the
    translation service and the two backends do; the body names the sender
    bot, carries the final reply, and a role that is the stored role of the
    user when the lookup finds a non-empty one and user in every other case. *)
Theorem rest_response_shape (env : Env) (req : Request) (chats : list Chat) :
  is_empty (message req) || is_empty (userId req) = false ->
  previousChats env = Some chats ->
  exists t,
    value (Route.turn env req) = Some t
    /\ value (Route.post env req) = Route.mkReply 200 (Route.resp t)
    /\ get_field (lit "sender") (Route.resp t) = Some (JStr (lit "bot"))
    /\ get_field (lit "text") (Route.resp t)
       = Some (JStr (Route.t_finalReply t))
    /\ get_field (lit "role") (Route.resp t)
       = Some (JStr match user_lookup env with
                    | UserDoc (Some (c :: role)) => c :: role
                    | _ => lit "user"
                    end).
Proof.
  intros Hreq Hfind.
  destruct (route_post_trace env req Hreq) as [_ ->].
  rewrite route_turn_value. cbv zeta. rewrite Hfind.
  eexists. split; [reflexivity |]. split; [reflexivity |].
  unfold Route.resp, Route.find_user_role. rewrite value_bind.
  cbn [Route.t_moodAnalysis Route.t_finalReply Route.t_userRole].
  destruct (value (Route.callCohereAnalyzeMood _ _ _));
    destruct (user_lookup env) as [| |[[|c role]|]]; repeat split; reflexivity.
Qed.

Lemma rest_response_shape_witness :
  exists t,
    value (Route.turn
             (mkEnv no_numbers None false (UserDoc (Some (lit "admin")))
                    Rejected Rejected (Some []) ChatFails Unreadable a_time
                    Rejected Rejected)
             hello) = Some t
    /\ value (Route.post
                (mkEnv no_numbers None false (UserDoc (Some (lit "admin")))
                       Rejected Rejected (Some []) ChatFails Unreadable a_time
                       Rejected Rejected)
                hello) = Route.mkReply 200 (Route.resp t)
    /\ get_field (lit "sender") (Route.resp t) = Some (JStr (lit "bot"))
    /\ get_field (lit "text") (Route.resp t)
       = Some (JStr (Route.t_finalReply t))
    /\ get_field (lit "role") (Route.resp t) = Some (JStr (lit "admin")).
Proof.
  exact (@rest_response_shape
           (mkEnv no_numbers None false (UserDoc (Some (lit "admin")))
                  Rejected Rejected (Some []) ChatFails Unreadable a_time
                  Rejected Rejected)
           hello [] eq_refl eq_refl).
Defined.

(** ** The admin token *)

Lemma slice_app_length (p s : jsstring) : slice (List.length p) (p ++ s) = s.
Proof.
  unfold slice. rewrite skipn_app, skipn_all, Nat.sub_diag. reflexivity.
Qed.

(** X16: the admin middleware lets a request through exactly when its
    Authorization header is Bearer admin-token- followed by anything, also by
    nothing; every other request, with or without a header, gets the 401. *)
Theorem admin_token_check (authorization : option jsstring) :
  (Admin.adminAuth authorization = Admin.Next
   <-> exists rest,
         authorization = Some (lit "Bearer admin-token-" ++ rest))
  /\ (Admin.adminAuth authorization = Admin.Next
      \/ Admin.adminAuth authorization = Admin.unauthorized).
Proof.
  unfold Admin.adminAuth, Admin.bearer_token.
  destruct authorization as [h|].
  2:{ split; [| right; reflexivity].
      split; [discriminate | intros [r H]; discriminate]. }
  destruct (starts_with (lit "Bearer ") h) eqn:Hb.
  - apply starts_with_spec in Hb. destruct Hb as [token ->].
    change (negb (is_empty (lit "Bearer " ++ token)) && true) with true.
    cbv iota.
    change 7 with (List.length (lit "Bearer ")). rewrite slice_app_length.
    destruct (starts_with (lit "admin-token-") token) eqn:Ht.
    + apply starts_with_spec in Ht. destruct Ht as [rest ->].
      change (negb (is_empty (lit "admin-token-" ++ rest)) && true) with true.
      split; [| left; reflexivity].
      split; [intros _ | reflexivity].
      exists rest. reflexivity.
    + rewrite andb_false_r. split; [| right; reflexivity].
      split; [discriminate |].
      intros [rest [= ->]]. cbv in Ht. discriminate.
  - rewrite andb_false_r. split; [| right; reflexivity].
    split; [discriminate |].
    intros [rest [= ->]]. cbv in Hb. discriminate.
Qed.

(** X17: the admin login answers 200 exactly for the pair admin and pass, as
    strings; the token it then hands out, sent back as a Bearer header,
    passes the admin middleware; every other login gets a 401 and a body
    with no token. *)
Theorem login_token_passes (adminId password : option json) (now : N) :
  (Admin.status (Admin.login adminId password now) = 200
   <-> adminId = Some (JStr (lit "admin"))
       /\ password = Some (JStr (lit "pass")))
  /\ (Admin.status (Admin.login adminId password now) = 200 ->
        get_field (lit "token") (Admin.body (Admin.login adminId password now))
        = Some (JStr (lit "admin-token-" ++ Admin.decimal now))
        /\ Admin.adminAuth
             (Some (lit "Bearer " ++ lit "admin-token-" ++ Admin.decimal now))
           = Admin.Next)
  /\ (Admin.status (Admin.login adminId password now) <> 200 ->
        Admin.status (Admin.login adminId password now) = 401
        /\ get_field (lit "token")
             (Admin.body (Admin.login adminId password now)) = None).
Proof.
  assert (Hpass : Admin.adminAuth
                    (Some (lit "Bearer " ++ lit "admin-token-"
                           ++ Admin.decimal now)) = Admin.Next).
  { apply (proj1 (admin_token_check _)). exists (Admin.decimal now).
    reflexivity. }
  unfold Admin.login.
  destruct adminId as [[| | |id| |]|], password as [[| | |pw| |]|];
    try (split; [split; [discriminate | intros [H1 H2]; discriminate] |];
         split; [discriminate | intros _; split; reflexivity]).
  destruct (str_eqb id (lit "admin")) eqn:Hid;
    destruct (str_eqb pw (lit "pass")) eqn:Hpw; simpl;
    try (split;
         [split; [discriminate |];
          intros [[= H1] [= H2]];
          try (rewrite <- str_eqb_eq in H1; congruence);
          rewrite <- str_eqb_eq in H2; congruence |];
         split; [discriminate | intros _; split; reflexivity]).
  apply str_eqb_eq in Hid, Hpw. subst id pw.
  split; [split; [intros _; split; reflexivity | reflexivity] |].
  split; [intros _; split; [reflexivity | exact Hpass] |].
  intros H. exfalso. apply H. reflexivity.
Qed.

Lemma login_token_passes_witness :
  get_field (lit "token")
    (Admin.body (Admin.login (Some (JStr (lit "admin")))
                   (Some (JStr (lit "pass"))) 1714557600000))
  = Some (JStr (lit "admin-token-1714557600000"))
  /\ Admin.adminAuth (Some (lit "Bearer admin-token-1714557600000"))
     = Admin.Next.
Proof.
  exact (proj1 (proj2 (login_token_passes (Some (JStr (lit "admin")))
                         (Some (JStr (lit "pass"))) 1714557600000))
               eq_refl).
Defined.

(** ** The server entry *)

(** X18: the CORS check allows a request exactly when it has no Origin, an
    empty one, or one that begins with an allowed origin; so an allowed
    origin followed by anything at all is allowed too. *)
Theorem cors_allows_by_prefix (origin : option jsstring) :
  (Server.cors_origin origin = true
   <-> origin = None \/ origin = Some []
       \/ exists allowed rest,
            In allowed Server.allowedOrigins
            /\ origin = Some (allowed ++ rest))
  /\ Server.cors_origin
       (Some (lit "https://sno-relax-client.vercel.app.example.org")) = true
  /\ Server.cors_origin (Some (lit "http://localhost:30001")) = true
  /\ Server.cors_origin (Some (lit "https://example.org")) = false.
Proof.
  split; [| repeat split; reflexivity].
  unfold Server.cors_origin.
  destruct origin as [[|c o]|].
  - split; [intros _; right; left; reflexivity | reflexivity].
  - cbn [is_empty]. rewrite existsb_exists. split.
    + intros [allowed [Hin Hpre]]. right. right.
      apply starts_with_spec in Hpre. destruct Hpre as [rest ->].
      exists allowed, rest. split; [exact Hin | reflexivity].
    + intros [H | [H | [allowed [rest [Hin [= H]]]]]]; try discriminate.
      exists allowed. split; [exact Hin |].
      rewrite H. apply starts_with_spec. exists rest. reflexivity.
  - split; [intros _; left; reflexivity | reflexivity].
Qed.

Lemma normalize_url_head (url : jsstring) :
  hd_error (Server.normalize_url url) = hd_error url.
Proof.
  induction url as [|c [|d rest] IH]; try reflexivity.
  change (Server.normalize_url (c :: d :: rest))
    with (if ((c =? 47) && (d =? 47))%N
          then Server.normalize_url (d :: rest)
          else c :: Server.normalize_url (d :: rest)).
  destruct ((c =? 47) && (d =? 47))%N eqn:E; [| reflexivity].
  rewrite IH. apply andb_true_iff in E. destruct E as [Hc Hd].
  apply N.eqb_eq in Hc, Hd. subst. reflexivity.
Qed.

Lemma normalize_url_step (c d : N) (rest : jsstring) :
  Server.normalize_url (c :: d :: rest)
  = if ((c =? 47) && (d =? 47))%N
    then Server.normalize_url (d :: rest)
    else c :: Server.normalize_url (d :: rest).
Proof. reflexivity. Qed.

Lemma normalize_url_no_run (url : jsstring) :
  includes (Server.normalize_url url) (lit "//") = false.
Proof.
  induction url as [|c [|d rest] IH].
  - reflexivity.
  - simpl. rewrite andb_false_r. reflexivity.
  - rewrite normalize_url_step.
    destruct ((c =? 47) && (d =? 47))%N eqn:E; [exact IH |].
    change (includes (c :: Server.normalize_url (d :: rest)) (lit "//"))
      with (starts_with (lit "//") (c :: Server.normalize_url (d :: rest))
            || includes (Server.normalize_url (d :: rest)) (lit "//")).
    rewrite IH, orb_false_r.
    pose proof (normalize_url_head (d :: rest)) as Hh.
    destruct (Server.normalize_url (d :: rest)) as [|e tail];
      [discriminate |].
    injection Hh as ->.
    change (starts_with (lit "//") (c :: d :: tail))
      with ((47 =? c)%N && ((47 =? d)%N && true)).
    rewrite andb_true_r, (N.eqb_sym 47 c), (N.eqb_sym 47 d). exact E.
Qed.

Lemma normalize_url_fixed (url : jsstring) :
  includes url (lit "//") = false -> Server.normalize_url url = url.
Proof.
  induction url as [|c [|d rest] IH]; try reflexivity.
  change (includes (c :: d :: rest) (lit "//"))
    with (((47 =? c)%N && ((47 =? d)%N && true))
          || includes (d :: rest) (lit "//")).
  rewrite andb_true_r, (N.eqb_sym 47 c), (N.eqb_sym 47 d).
  intros H. apply orb_false_iff in H. destruct H as [E H].
  rewrite normalize_url_step, E, (IH H). reflexivity.
Qed.

(** X19: the URL normalizer leaves no two slashes side by side, changes
    nothing else (the units that are not slashes stay, in order), leaves a
    URL without a double slash as it is, and so does nothing when applied
    twice; it does not stop at the query string. *)
Theorem normalize_url_collapses (url : jsstring) :
  includes (Server.normalize_url url) (lit "//") = false
  /\ filter (fun c => negb (c =? 47)%N) (Server.normalize_url url)
     = filter (fun c => negb (c =? 47)%N) url
  /\ (includes url (lit "//") = false -> Server.normalize_url url = url)
  /\ Server.normalize_url (Server.normalize_url url) = Server.normalize_url url
  /\ Server.normalize_url (lit "//api///chat?next=http://x")
     = lit "/api/chat?next=http:/x".
Proof.
  split; [apply normalize_url_no_run |].
  split.
  { induction url as [|c [|d rest] IH]; try reflexivity.
    rewrite normalize_url_step.
    destruct ((c =? 47) && (d =? 47))%N eqn:E.
    - rewrite IH. apply andb_true_iff in E. destruct E as [Hc _].
      cbn [filter]. rewrite Hc. reflexivity.
    - cbn [filter]. rewrite IH. reflexivity. }
  split; [apply normalize_url_fixed |].
  split; [apply normalize_url_fixed, normalize_url_no_run | reflexivity].
Qed.

Lemma normalize_url_collapses_witness :
  Server.normalize_url (lit "/api/chat/history") = lit "/api/chat/history".
Proof.
  exact (proj1 (proj2 (proj2 (normalize_url_collapses
                                (lit "/api/chat/history"))))
               eq_refl).
Defined.

Lemma startServer_serving (listen : N -> Server.ListenResult)
    (attempts : nat) :
  forall port p,
    Server.startServer listen port attempts = Server.Serving p
    <-> exists k,
          k <= attempts
          /\ p = (port + N.of_nat k)%N
          /\ listen p = Server.Listening
          /\ forall j, j < k ->
               listen (port + N.of_nat j)%N = Server.AddressInUse.
Proof.
  induction attempts as [|n IH]; intros port p; simpl.
  - destruct (listen port) eqn:E.
    + split.
      * intros [= <-]. exists 0. rewrite N.add_0_r.
        repeat split; [lia | exact E | intros j Hj; lia].
      * intros [k [Hk [-> [Hl Hbefore]]]].
        assert (k = 0) by lia. subst k. rewrite N.add_0_r. reflexivity.
    + split; [discriminate |].
      intros [k [Hk [-> [Hl _]]]].
      assert (k = 0) by lia. subst k. rewrite N.add_0_r in Hl. congruence.
    + split; [discriminate |].
      intros [k [Hk [-> [Hl _]]]].
      assert (k = 0) by lia. subst k. rewrite N.add_0_r in Hl. congruence.
  - destruct (listen port) eqn:E.
    + split.
      * intros [= <-]. exists 0. rewrite N.add_0_r.
        repeat split; [lia | exact E | intros j Hj; lia].
      * intros [k [Hk [-> [Hl Hbefore]]]].
        destruct k as [|k]; [rewrite N.add_0_r; reflexivity |].
        specialize (Hbefore 0 ltac:(lia)). rewrite N.add_0_r in Hbefore.
        congruence.
    + rewrite IH. split.
      * intros [k [Hk [-> [Hl Hbefore]]]]. exists (S k).
        split; [lia |]. split; [lia |].
        split; [rewrite <- Hl; f_equal; lia |].
        intros [|j] Hj; [rewrite N.add_0_r; exact E |].
        rewrite <- (Hbefore j ltac:(lia)). f_equal. lia.
      * intros [k [Hk [-> [Hl Hbefore]]]].
        destruct k as [|k]; [rewrite N.add_0_r in Hl; congruence |].
        exists k. split; [lia |]. split; [lia |].
        split; [rewrite <- Hl; f_equal; lia |].
        intros j Hj. rewrite <- (Hbefore (S j) ltac:(lia)). f_equal. lia.
    + split; [discriminate |].
      intros [k [Hk [-> [Hl Hbefore]]]].
      destruct k as [|k]; [rewrite N.add_0_r in Hl; congruence |].
      specialize (Hbefore 0 ltac:(lia)). rewrite N.add_0_r in Hbefore.
      congruence.
Qed.

(** X20: startServer ends up serving on a port exactly when that port is the
    first one, counting up from the port asked for, that is not in use, it
    lies at most attemptsLeft above it (5 by default, so six ports are tried
    at most), and no port before it failed for another reason; in every
    other case the process exits. *)
Theorem startServer_first_free_port (listen : N -> Server.ListenResult)
    (port : N) (attemptsLeft : nat) (p : N) :
  (Server.startServer listen port attemptsLeft = Server.Serving p
   <-> exists k,
         k <= attemptsLeft
         /\ p = (port + N.of_nat k)%N
         /\ listen p = Server.Listening
         /\ forall j, j < k ->
              listen (port + N.of_nat j)%N = Server.AddressInUse)
  /\ (Server.startServer listen port attemptsLeft = Server.Serving p ->
        (port <= p <= port + N.of_nat attemptsLeft)%N)
  /\ ((forall j, j <= attemptsLeft ->
         listen (port + N.of_nat j)%N = Server.AddressInUse) ->
        Server.startServer listen port attemptsLeft = Server.Exited).
Proof.
  split; [apply startServer_serving |].
  split.
  { intros H. apply startServer_serving in H.
    destruct H as [k [Hk [-> _]]]. lia. }
  intros Hall.
  destruct (Server.startServer listen port attemptsLeft) as [q|] eqn:E;
    [| reflexivity].
  apply startServer_serving in E. destruct E as [k [Hk [-> [Hl _]]]].
  rewrite (Hall k Hk) in Hl. discriminate.
Qed.

Lemma startServer_first_free_port_witness :
  (5000 <= 5002 <= 5000 + N.of_nat 5)%N
  /\ Server.startServer (fun _ => Server.AddressInUse) 5000 5 = Server.Exited.
Proof.
  split.
  - exact (proj1 (proj2 (startServer_first_free_port
                           (fun port => if (port <? 5002)%N
                                        then Server.AddressInUse
                                        else Server.Listening)
                           5000 5 5002))
                 eq_refl).
  - exact (proj2 (proj2 (startServer_first_free_port
                           (fun _ => Server.AddressInUse) 5000 5 0))
                 (fun _ _ => eq_refl)).
Defined.

(** ** The guide *)


Lemma first_line_prefix (s : jsstring) :
  ~ In 10%N (Ai.first_line s) /\ exists rest, s = Ai.first_line s ++ rest.
Proof.
  induction s as [|c s [IHn [rest IHp]]]; simpl.
  - split; [tauto | exists []; reflexivity].
  - destruct (N.eqb_spec c 10) as [-> | Hc]; simpl.
    + split; [tauto | eexists; reflexivity].
    + split; [intros [H | H]; [congruence | tauto] |].
      exists rest. rewrite <- IHp. reflexivity.
Qed.

(** X22: callCohereGuide throws, without a call, when no key is configured,
    and throws when the call is rejected or aborted, when the status is not
    ok and when the body is not JSON.  When the generated text is a string
    it never throws: it returns whatever that text parses to from its first
    brace on, unchecked, and when the text does not parse, a structure whose
    summary is the first line of the trimmed text, with urgent false and no
    recommendations. *)
Theorem guide_call_cases (rt : Runtime) (key : option jsstring)
    (prompt : jsstring) (r : FetchOutcome) :
  (configured key = false -> Ai.callCohereGuide rt key prompt r = (None, []))
  /\ (r = Rejected
      \/ (exists body, r = Response false body)
      \/ (exists body, r = Response true body /\ JSON_parse body = None) ->
        value (Ai.callCohereGuide rt key prompt r) = None)
  /\ (forall body data s,
        configured key = true ->
        r = Response true body ->
        JSON_parse body = Some data ->
        generation_text data = JStr s ->
        trace (Ai.callCohereGuide rt key prompt r)
        = [FetchGenerate (Ai.enhanced prompt)]
        /\ (forall obj, JSON_parse (Ai.jsonText_of s) = Some obj ->
              value (Ai.callCohereGuide rt key prompt r) = Some obj)
        /\ (JSON_parse (Ai.jsonText_of s) = None ->
              value (Ai.callCohereGuide rt key prompt r)
              = Some (Ai.fallback s)))
  /\ (forall s,
        exists line rest,
          Ai.fallback s
          = JObj [(lit "summary", JStr line);
                  (lit "urgent", JBool false);
                  (lit "recommendations", JArr [])]
          /\ ~ In 10%N line
          /\ trim s = line ++ rest).
Proof.
  unfold Ai.callCohereGuide.
  split; [intros ->; reflexivity |].
  split.
  { intros H. destruct (configured key); [| reflexivity].
    unfold value; simpl.
    destruct H as [-> | [[body ->] | [body [-> Hb]]]]; try reflexivity.
    rewrite Hb. reflexivity. }
  split.
  { intros body data s -> -> Hb Ht. unfold value, trace; simpl.
    rewrite Hb, Ht. simpl. split; [reflexivity |].
    split; [intros obj -> | intros ->]; reflexivity. }
  intros s. unfold Ai.fallback.
  destruct (first_line_prefix (trim s)) as [Hn [rest Hp]].
  exists (Ai.first_line (trim s)), rest.
  split; [| split; [exact Hn | exact Hp]].
  unfold str_or. destruct (Ai.first_line (trim s)); reflexivity.
Qed.

Lemma guide_call_cases_witness :
  Ai.callCohereGuide no_numbers None (lit "{}") Rejected = (None, [])
  /\ value (Ai.callCohereGuide no_numbers a_key (lit "{}")
              (Response false (lit "Too Many Requests"))) = None
  /\ value (Ai.callCohereGuide no_numbers a_key (lit "{}")
              (Response true (generation_body (lit "null")))) = Some JNull
  /\ value (Ai.callCohereGuide no_numbers a_key (lit "{}")
              (Response true
                 (generation_body (lit " Take a walk. Then rest."))))
     = Some (Ai.fallback (lit " Take a walk. Then rest.")).
Proof.
  split.
  { exact (proj1 (guide_call_cases no_numbers None (lit "{}") Rejected)
                 eq_refl). }
  split.
  { refine (proj1 (proj2 (guide_call_cases no_numbers a_key (lit "{}")
              (Response false (lit "Too Many Requests")))) _).
    right. left. eexists. reflexivity. }
  split.
  { refine (proj1 (proj2 (proj1 (proj2 (proj2
              (guide_call_cases no_numbers a_key (lit "{}")
                 (Response true (generation_body (lit "null"))))))
              _ (JObj [(lit "generations",
                        JArr [JObj [(lit "text", JStr (lit "null"))]])])
              (lit "null") eq_refl eq_refl _ _)) JNull _);
      vm_compute; reflexivity. }
  refine (proj2 (proj2 (proj1 (proj2 (proj2
            (guide_call_cases no_numbers a_key (lit "{}")
               (Response true
                  (generation_body (lit " Take a walk. Then rest."))))))
            _ (JObj [(lit "generations",
                      JArr [JObj [(lit "text",
                                   JStr (lit " Take a walk. Then rest."))]])])
            (lit " Take a walk. Then rest.") eq_refl eq_refl _ _)) _);
    vm_compute; reflexivity.
Defined.

(** ** The admin popup *)

Lemma decimal_not_empty (n : N) : is_empty (Admin.decimal n) = false.
Proof.
  unfold Admin.decimal, NilZero.string_of_uint.
  destruct (N.to_uint n); reflexivity.
Qed.

Lemma or_value_truthy (o : option json) (d : json) :
  truthy d = true -> truthy (Popup.or_value o d) = true.
Proof.
  intros Hd. unfold Popup.or_value.
  destruct o as [v|]; [destruct (truthy v) eqn:E|]; assumption.
Qed.

Lemma or_value_keeps (v d : json) :
  truthy v = true -> Popup.or_value (Some v) d = v.
Proof. intros H. unfold Popup.or_value. rewrite H. reflexivity. Qed.

Lemma JSON_parse_empty : JSON_parse [] = None.
Proof. vm_compute. reflexivity. Qed.

Lemma popup_update_shape authorization content version now write_ok obj :
  Popup.written
    (Popup.post_popup authorization content version now write_ok) = Some obj ->
  exists c v,
    obj = JObj [(lit "content", JStr c); (lit "version", v)] /\
    truthy v = true /\
    (write_ok = true ->
     Popup.post_popup authorization content version now write_ok
     = Popup.mkUpdate (Admin.mkReply 200 (Popup.ok_body (JStr c) v))
                      (Some obj)).
Proof.
  unfold Popup.post_popup.
  destruct (Admin.adminAuth authorization); [|discriminate].
  destruct content as [[| | | c | |]|]; try discriminate.
  intros H.
  exists c, (Popup.or_value version (JStr (Admin.decimal now))).
  assert (Hobj : obj = JObj [(lit "content", JStr c);
                             (lit "version",
                              Popup.or_value version
                                (JStr (Admin.decimal now)))]).
  { destruct write_ok; cbn in H; now injection H as <-. }
  split; [exact Hobj |]. split.
  - apply or_value_truthy. cbn [truthy]. now rewrite decimal_not_empty.
  - intros ->. rewrite Hobj. reflexivity.
Qed.

(** X23: POST /popup hands an object to writePopup exactly when the admin
    middleware lets the request through and [content] is a string; a refused
    request is answered 401 and a non-string content 400, both with nothing
    written.  The object written is [{content, version}] with the given
    content, and its version is the given one when that is truthy and the
    decimal text of [Date.now()] otherwise, so it is always truthy; on a
    successful write the answer is 200 with the same content and version. *)
Theorem popup_update_guarded :
  forall authorization content version now write_ok,
    let u := Popup.post_popup authorization content version now write_ok in
    (Popup.written u = None <->
       Admin.adminAuth authorization = Admin.unauthorized \/
       (forall c, content <> Some (JStr c))) /\
    (Admin.adminAuth authorization = Admin.unauthorized ->
       Admin.status (Popup.reply u) = 401) /\
    (Admin.adminAuth authorization = Admin.Next ->
       (forall c, content <> Some (JStr c)) ->
       Admin.status (Popup.reply u) = 400) /\
    (forall obj, Popup.written u = Some obj ->
       exists c v,
         content = Some (JStr c) /\
         obj = JObj [(lit "content", JStr c); (lit "version", v)] /\
         truthy v = true /\
         (truthy_opt version = true -> version = Some v) /\
         (truthy_opt version = false -> v = JStr (Admin.decimal now)) /\
         (write_ok = true ->
            Popup.reply u = Admin.mkReply 200 (Popup.ok_body (JStr c) v)) /\
         (write_ok = false -> Admin.status (Popup.reply u) = 500)).
Proof.
  intros authorization content version now write_ok u. subst u.
  unfold Popup.post_popup.
  assert (Hauth : Admin.adminAuth authorization = Admin.Next \/
                  Admin.adminAuth authorization = Admin.unauthorized).
  { unfold Admin.adminAuth.
    destruct (Admin.bearer_token authorization) as [t|]; [|now right].
    destruct (negb (is_empty t) && starts_with (lit "admin-token-") t);
      [now left | now right]. }
  destruct Hauth as [Ha | Ha]; rewrite Ha.
  - assert (Hv : truthy (Popup.or_value version (JStr (Admin.decimal now)))
                 = true).
    { apply or_value_truthy. cbn [truthy]. now rewrite decimal_not_empty. }
    destruct content as [[| | | c | |]|];
      try (repeat split; intros;
           solve [ reflexivity | discriminate | right; intros; discriminate
                 | match goal with
                   | H : Admin.Next = Admin.unauthorized |- _ => discriminate H
                   end ]).
    split; [split | split; [| split]].
    + destruct write_ok; cbn; discriminate.
    + intros [H | H]; [discriminate H | now destruct (H c)].
    + intros H; discriminate H.
    + intros _ H. now destruct (H c).
    + intros obj Hobj.
      exists c, (Popup.or_value version (JStr (Admin.decimal now))).
      split; [reflexivity |].
      split; [| split; [| split; [| split; [| split]]]].
      * destruct write_ok; cbn in Hobj; now injection Hobj as <-.
      * exact Hv.
      * intros Ht. destruct version as [v|]; [|discriminate].
        cbn in Ht. now rewrite or_value_keeps.
      * intros Ht. destruct version as [v|]; [|reflexivity].
        cbn in Ht. unfold Popup.or_value. now rewrite Ht.
      * now intros ->.
      * now intros ->.
  - unfold Admin.unauthorized. cbn.
    repeat split; try discriminate; auto.
Qed.

Lemma popup_update_guarded_witness :
  exists c v,
    Some (JStr (lit "hi")) = Some (JStr c) /\
    truthy v = true /\
    Popup.reply
      (Popup.post_popup (Some (lit "Bearer admin-token-1"))
                        (Some (JStr (lit "hi"))) None 7 true)
    = Admin.mkReply 200 (Popup.ok_body (JStr c) v).
Proof.
  destruct (popup_update_guarded (Some (lit "Bearer admin-token-1"))
              (Some (JStr (lit "hi"))) None 7 true) as (_ & _ & _ & H).
  destruct (H _ eq_refl) as (c & v & Hc & _ & Hv & _ & _ & Hok & _).
  exists c, v. repeat split; [exact Hc | exact Hv | exact (Hok eq_refl)].
Defined.

(** X24: GET /popup after a successful POST /popup answers what the POST
    answered: when the file holds a text that parses to the object the POST
    handed to writePopup, the GET's reply is the POST's reply, status 200
    with the same content and version. *)
Theorem popup_round_trip :
  forall authorization content version now raw obj message,
    let u := Popup.post_popup authorization content version now true in
    Popup.written u = Some obj ->
    JSON_parse raw = Some obj ->
    Popup.get_popup (FileText raw) message = Popup.reply u /\
    Admin.status (Popup.reply u) = 200.
Proof.
  intros authorization content version now raw obj message u Hw Hraw.
  destruct (popup_update_shape authorization content version now true Hw)
    as (c & v & -> & Hv & Hu).
  specialize (Hu eq_refl). subst u. rewrite Hu.
  cbn [Popup.reply Admin.status]. split; [|reflexivity].
  unfold Popup.get_popup, Popup.readPopup.
  assert (Hne : str_or raw (lit "{}") = raw).
  { destruct raw; [|reflexivity].
    rewrite JSON_parse_empty in Hraw. discriminate. }
  rewrite Hne, Hraw.
  cbn [get_field].
  replace (assoc_last (lit "content")
             [(lit "content", JStr c); (lit "version", v)])
    with (Some (JStr c)) by reflexivity.
  replace (assoc_last (lit "version")
             [(lit "content", JStr c); (lit "version", v)])
    with (Some v) by reflexivity.
  rewrite (@or_value_keeps v) by exact Hv.
  unfold Popup.or_value. cbn [truthy].
  destruct c; reflexivity.
Qed.

Lemma popup_round_trip_witness :
  Popup.get_popup
    (FileText (bq "{`content`:`hi`,`version`:`7`}")) []
  = Admin.mkReply 200 (Popup.ok_body (JStr (lit "hi")) (JStr (lit "7"))).
Proof.
  exact (proj1 (popup_round_trip (Some (lit "Bearer admin-token-1"))
                  (Some (JStr (lit "hi"))) None 7
                  (bq "{`content`:`hi`,`version`:`7`}") []
                  eq_refl eq_refl)).
Defined.

(** X25: GET /popup answers 200 with content '' and version '1' when the
    file is missing, cannot be read, or holds a text that is not JSON (the
    empty file counts as [{}]); it answers 500 exactly when the file's text
    parses to [null], and 200 in every other case. *)
Theorem popup_read_defaults :
  forall message,
    let fallback :=
      Admin.mkReply 200 (Popup.ok_body (JStr []) (JStr (lit "1"))) in
    Popup.get_popup NoFile message = fallback /\
    Popup.get_popup Unreadable message = fallback /\
    Popup.get_popup (FileText []) message = fallback /\
    (forall raw, JSON_parse (str_or raw (lit "{}")) = None ->
                 Popup.get_popup (FileText raw) message = fallback) /\
    (forall file,
       (Admin.status (Popup.get_popup file message) = 500 <->
        exists raw, file = FileText raw /\ JSON_parse raw = Some JNull) /\
       (Admin.status (Popup.get_popup file message) = 500 \/
        Admin.status (Popup.get_popup file message) = 200)).
Proof.
  intros message fallback.
  split; [reflexivity |]. split; [reflexivity |].
  split; [vm_compute; reflexivity |].
  split.
  - intros raw H. unfold Popup.get_popup, Popup.readPopup.
    rewrite H. reflexivity.
  - intros file. unfold Popup.get_popup, Popup.readPopup.
    destruct file as [| | raw].
    + split; [split|right; reflexivity].
      * cbn. discriminate.
      * intros (raw & H & _). discriminate H.
    + split; [split|right; reflexivity].
      * cbn. discriminate.
      * intros (raw & H & _). discriminate H.
    + destruct raw as [|x raw].
      * split; [split|right; vm_compute; reflexivity].
        -- vm_compute. discriminate.
        -- intros (raw & [= <-] & H).
           rewrite JSON_parse_empty in H. discriminate.
      * unfold str_or. cbn [is_empty].
        destruct (JSON_parse (x :: raw)) as [p|] eqn:E.
        -- destruct p; (split; [split|]);
             try (cbn; discriminate);
             try (intros (raw' & [= <-] & H); rewrite E in H; discriminate H);
             try (right; reflexivity); try (left; reflexivity);
             try (intros _; reflexivity).
           intros _. exists (x :: raw). split; [reflexivity | exact E].
        -- split; [split|right; reflexivity].
           ++ cbn. discriminate.
           ++ intros (raw' & [= <-] & H). rewrite E in H. discriminate H.
Qed.

(** ** The admin namespace *)

Lemma destructured_some (data : option json) (d : json) :
  AdminSocket.destructured data = Some d -> data = Some d.
Proof.
  destruct data as [[]|]; cbn; intros [= <-] || discriminate; reflexivity.
Qed.

Lemma handle_unauthenticated (w : AdminSocket.World) (e : AdminSocket.Incoming) :
  AdminSocket.authenticates e = false ->
  AdminSocket.handle w AdminSocket.connected e = None \/
  exists acts,
    AdminSocket.handle w AdminSocket.connected e
    = Some (AdminSocket.connected, acts) /\
    Forall AdminSocket.refusal acts.
Proof.
  intros He. destruct e as [data | data | data |]; cbn [AdminSocket.handle].
  - unfold AdminSocket.authenticate.
    destruct (AdminSocket.destructured data) as [d|] eqn:Ed; [|now left].
    apply destructured_some in Ed. subst data.
    cbn [AdminSocket.authenticates] in He. rewrite He.
    right. eexists. split; [reflexivity|].
    constructor; [now right | constructor].
  - right. eexists. split; [reflexivity|].
    constructor; [now left | constructor].
  - right. eexists. split; [reflexivity|].
    constructor; [now left | constructor].
  - right. exists []. split; [reflexivity | constructor].
Qed.

(** X26: a socket of the admin namespace on which no [authenticate] event
    carried a truthy token together with a truthy id stays as it was
    connected, and every action its listeners take is one of the two
    refusals: no room is joined or left, no query is made, no document is
    saved or updated, whatever commands are sent. *)
Theorem admin_socket_gate :
  forall w es,
    Forall (fun e => AdminSocket.authenticates e = false) es ->
    AdminSocket.final (AdminSocket.run w AdminSocket.connected es)
    = AdminSocket.connected /\
    Forall AdminSocket.refusal
           (AdminSocket.actions (AdminSocket.run w AdminSocket.connected es)).
Proof.
  intros w es H. induction H as [|e es He _ IH].
  - split; [reflexivity | constructor].
  - cbn [AdminSocket.run].
    destruct (@handle_unauthenticated w e He) as [-> | (acts & -> & Hacts)].
    + split; [reflexivity | constructor].
    + cbn [AdminSocket.final AdminSocket.actions]. destruct IH as [IH1 IH2].
      split; [exact IH1 |]. apply Forall_app. split; assumption.
Qed.

Lemma admin_socket_gate_witness :
  AdminSocket.actions
    (AdminSocket.run
       (AdminSocket.mkWorld no_numbers None JNull true true)
       AdminSocket.connected
       [AdminSocket.AdminCommand
          (Some (JObj [(lit "command", JStr (lit "kickUser"));
                       (lit "payload", JObj [(lit "userId", JStr (lit "u1"))])]));
        AdminSocket.Authenticate
          (Some (JObj [(lit "adminToken", JStr []);
                       (lit "adminId", JStr (lit "root"))]));
        AdminSocket.JoinAdminRoom None])
  = [AdminSocket.not_authenticated; AdminSocket.invalid_credentials;
     AdminSocket.not_authenticated]
  /\ Forall AdminSocket.refusal
       [AdminSocket.not_authenticated; AdminSocket.invalid_credentials;
        AdminSocket.not_authenticated].
Proof.
  split; [reflexivity |].
  refine (proj2 (admin_socket_gate
                   (AdminSocket.mkWorld no_numbers None JNull true true)
                   (es := [AdminSocket.AdminCommand
                      (Some (JObj [(lit "command", JStr (lit "kickUser"));
                                   (lit "payload",
                                    JObj [(lit "userId", JStr (lit "u1"))])]));
                    AdminSocket.Authenticate
                      (Some (JObj [(lit "adminToken", JStr []);
                                   (lit "adminId", JStr (lit "root"))]));
                    AdminSocket.JoinAdminRoom None]) _)).
  repeat constructor.
Defined.



Lemma handle_socket_after (w : AdminSocket.World) (s s' : AdminSocket.Socket)
    (e : AdminSocket.Incoming) (acts : list AdminSocket.Action) :
  AdminSocket.handle w s e = Some (s', acts) ->
  s' = s \/
  (AdminSocket.adminAuthenticated s' = true /\
   truthy_opt (AdminSocket.adminId s') = true).
Proof.
  destruct e as [data | data | data |]; cbn [AdminSocket.handle].
  - unfold AdminSocket.authenticate.
    destruct (AdminSocket.destructured data) as [d|]; [|discriminate].
    destruct (truthy_opt (get_field (lit "adminToken") d)) eqn:Et;
      [destruct (truthy_opt (get_field (lit "adminId") d)) eqn:Ei|];
      cbn [andb]; intros [= <- _]; auto.
  - unfold AdminSocket.joinAdminRoom.
    destruct (negb (AdminSocket.adminAuthenticated s)); [intros [= <- _]; auto|].
    destruct (if truthy_opt (AdminSocket.adminId s) then _ else _);
      [intros [= <- _]; auto | discriminate].
  - unfold AdminSocket.adminCommand.
    destruct (negb (AdminSocket.adminAuthenticated s)); [intros [= <- _]; auto|].
    destruct (AdminSocket.destructured data);
      [intros [= <- _]; auto | discriminate].
  - intros [= <- _]. auto.
Qed.

Lemma run_final_after (w : AdminSocket.World) (es : list AdminSocket.Incoming) :
  forall s,
    AdminSocket.final (AdminSocket.run w s es) = s \/
    (AdminSocket.adminAuthenticated (AdminSocket.final (AdminSocket.run w s es))
     = true /\
     truthy_opt (AdminSocket.adminId (AdminSocket.final (AdminSocket.run w s es)))
     = true).
Proof.
  induction es as [|e es IH]; intros s; [now left|].
  cbn [AdminSocket.run].
  destruct (AdminSocket.handle w s e) as [[s' acts]|] eqn:E; [|now left].
  cbn [AdminSocket.final].
  destruct (handle_socket_after _ _ _ E) as [-> | [Ha Hi]]; [apply IH|].
  destruct (IH s') as [-> | H]; [right; now split | now right].
Qed.

(** X28: nothing on the admin namespace takes the authentication back: a
    socket that is authenticated with a truthy id is still so after any
    further events, a failed [authenticate] and a throwing listener
    included. *)
Theorem admin_socket_stays_authenticated :
  forall w s es,
    AdminSocket.adminAuthenticated s = true ->
    truthy_opt (AdminSocket.adminId s) = true ->
    AdminSocket.adminAuthenticated (AdminSocket.final (AdminSocket.run w s es))
    = true /\
    truthy_opt (AdminSocket.adminId (AdminSocket.final (AdminSocket.run w s es)))
    = true.
Proof.
  intros w s es Ha Hi.
  destruct (run_final_after w es s) as [-> | H]; [now split | exact H].
Qed.

Lemma admin_socket_stays_authenticated_witness :
  AdminSocket.adminAuthenticated
    (AdminSocket.final
       (AdminSocket.run
          (AdminSocket.mkWorld no_numbers None JNull true true)
          (AdminSocket.mkSocket true (Some (JStr (lit "root"))))
          [AdminSocket.Authenticate
             (Some (JObj [(lit "adminToken", JStr []);
                          (lit "adminId", JStr [])]));
           AdminSocket.Disconnect;
           AdminSocket.AdminCommand None]))
  = true.
Proof.
  exact (proj1 (@admin_socket_stays_authenticated
                  (AdminSocket.mkWorld no_numbers None JNull true true)
                  (AdminSocket.mkSocket true (Some (JStr (lit "root"))))
                  [AdminSocket.Authenticate
                     (Some (JObj [(lit "adminToken", JStr []);
                                  (lit "adminId", JStr [])]));
                   AdminSocket.Disconnect;
                   AdminSocket.AdminCommand None]
                  eq_refl eq_refl)).
Defined.



(** X30: the commands of an authenticated admin socket.  A command that is
    not one of the four names (or not a string) is answered
    [Unknown command]; broadcastAnnouncement, kickUser and moderateContent
    with a payload that is [null] or missing are answered
    [Command execution failed] with nothing saved or updated; and every
    command emits at most one message, exactly one unless it is
    getRealTimeStats. *)
Theorem admin_command_cases :
  forall w s command payload,
    (forall c, command = Some (JStr c) ->
       In c [lit "broadcastAnnouncement"; lit "kickUser";
             lit "moderateContent"] ->
       AdminSocket.destructured payload = None ->
       AdminSocket.dispatch w s command payload
       = [AdminSocket.execution_failed]) /\
    ((forall c, command = Some (JStr c) ->
        ~ In c [lit "broadcastAnnouncement"; lit "kickUser";
                lit "moderateContent"; lit "getRealTimeStats"]) ->
     AdminSocket.dispatch w s command payload = [AdminSocket.unknown_command]) /\
    AdminSocket.emits (AdminSocket.dispatch w s command payload) <= 1 /\
    (command <> Some (JStr (lit "getRealTimeStats")) ->
     AdminSocket.emits (AdminSocket.dispatch w s command payload) = 1).
Proof.
  intros w s command payload.
  assert (Hcases :
    (exists c, command = Some (JStr c) /\
       (c = lit "broadcastAnnouncement" \/ c = lit "kickUser" \/
        c = lit "moderateContent" \/ c = lit "getRealTimeStats")) \/
    ((forall c, command = Some (JStr c) ->
        str_eqb c (lit "broadcastAnnouncement") = false /\
        str_eqb c (lit "kickUser") = false /\
        str_eqb c (lit "moderateContent") = false /\
        str_eqb c (lit "getRealTimeStats") = false) /\
     AdminSocket.dispatch w s command payload = [AdminSocket.unknown_command])).
  { destruct command as [[| | | c | |]|];
      try (right; split; [intros c [=] | reflexivity]).
    unfold AdminSocket.dispatch.
    destruct (str_eqb c (lit "broadcastAnnouncement")) eqn:E1;
      [left; exists c; split; [reflexivity | left; now apply str_eqb_eq]|].
    destruct (str_eqb c (lit "kickUser")) eqn:E2;
      [left; exists c; split;
       [reflexivity | right; left; now apply str_eqb_eq]|].
    destruct (str_eqb c (lit "moderateContent")) eqn:E3;
      [left; exists c; split;
       [reflexivity | right; right; left; now apply str_eqb_eq]|].
    destruct (str_eqb c (lit "getRealTimeStats")) eqn:E4;
      [left; exists c; split;
       [reflexivity | right; right; right; now apply str_eqb_eq]|].
    right. split; [|reflexivity]. intros c' [= <-]. auto. }
  destruct Hcases as [(c & -> & Hc) | [Hno Hd]].
  - assert (E1 : AdminSocket.dispatch w s
                   (Some (JStr (lit "broadcastAnnouncement"))) payload
                 = AdminSocket.handleBroadcastAnnouncement w s payload)
      by reflexivity.
    assert (E2 : AdminSocket.dispatch w s (Some (JStr (lit "kickUser"))) payload
                 = AdminSocket.handleKickUser payload) by reflexivity.
    assert (E3 : AdminSocket.dispatch w s
                   (Some (JStr (lit "moderateContent"))) payload
                 = AdminSocket.handleModerateContent w s payload)
      by reflexivity.
    assert (E4 : AdminSocket.dispatch w s
                   (Some (JStr (lit "getRealTimeStats"))) payload
                 = AdminSocket.sendRealTimeStats w) by reflexivity.
    split; [|split; [|split]].
    + intros c' [= <-] Hin Hp.
      destruct Hc as [-> | [-> | [-> | ->]]].
      * rewrite E1. unfold AdminSocket.handleBroadcastAnnouncement.
        now rewrite Hp.
      * rewrite E2. unfold AdminSocket.handleKickUser. now rewrite Hp.
      * rewrite E3. unfold AdminSocket.handleModerateContent. now rewrite Hp.
      * exfalso. destruct Hin as [H | [H | [H | []]]]; discriminate H.
    + intros H. exfalso. apply (H c eq_refl).
      destruct Hc as [-> | [-> | [-> | ->]]]; cbn [In]; auto.
    + destruct Hc as [-> | [-> | [-> | ->]]];
        rewrite ?E1, ?E2, ?E3, ?E4;
        unfold AdminSocket.handleBroadcastAnnouncement,
               AdminSocket.handleKickUser, AdminSocket.handleModerateContent,
               AdminSocket.sendRealTimeStats, AdminSocket.emits;
        destruct (AdminSocket.destructured payload);
        try destruct (AdminSocket.save_ok w);
        try destruct (AdminSocket.update_ok w);
        try destruct (AdminSocket.stats w); cbn; lia.
    + intros Hn.
      destruct Hc as [-> | [-> | [-> | ->]]];
        [ | | | now destruct Hn ];
        rewrite ?E1, ?E2, ?E3;
        unfold AdminSocket.handleBroadcastAnnouncement,
               AdminSocket.handleKickUser, AdminSocket.handleModerateContent,
               AdminSocket.emits;
        destruct (AdminSocket.destructured payload);
        try destruct (AdminSocket.save_ok w);
        try destruct (AdminSocket.update_ok w); reflexivity.
  - rewrite Hd. split; [|split; [|split]].
    + intros c Hc Hin _. destruct (Hno c Hc) as (E1 & E2 & E3 & _).
      destruct Hin as [<- | [<- | [<- | []]]]; discriminate.
    + reflexivity.
    + cbn. lia.
    + reflexivity.
Qed.
